(** * Electrolux PO12F A/C remote codec (ir_Electrolux.h / ir_Electrolux.cpp)

    A shallow embedding of class [IRElectroluxPO12FAC]: the 14-byte command
    frame with its packed bit-fields, the checksum, the field setters and
    getters, and the projection to the protocol-independent [stdAc::state_t].

    Conventions.
    - A [uint8_t] is a [Z]; every store into a bit-field masks the value to
      the width of the field, as the C++ store does.
    - The union [ElectroluxPO12FProtocol] is the list of its 14 bytes; a
      bit-field is a (byte, bit offset, width) triple.  Bit-fields are
      allocated from the least significant bit of their byte, as GCC does on
      the little-endian targets of the library.
    - A [float] is an IEEE-754 binary32 number, through the Standard
      Library's executable [SpecFloat] operations at precision 24.
    - Lengths and indices ([uint16_t] in the source) are [nat]; the only
      subtraction on them, [length - 1], is guarded by [length != 0]. *)

From Stdlib Require Import ZArith Bool Lia.
From Stdlib Require Import Floats.SpecFloat.
From stdpp Require Import base numbers list.

Local Open Scope Z_scope.

(** ** binary32 arithmetic *)

Module Float32.

Definition prec : Z := 24.
Definition emax : Z := 128.

Definition float : Type := spec_float.

(** Conversion of an integer to [float] (round to nearest even; exact on
    every integer used in this file). *)
Definition of_int (z : Z) : float := binary_normalize prec emax z 0 false.

Definition add (x y : float) : float := SFadd prec emax x y.
Definition sub (x y : float) : float := SFsub prec emax x y.
Definition ltb (x y : float) : bool := SFltb x y.
Definition eqb (x y : float) : bool := SFeqb x y.

(** [std::max(a, b)] is [(a < b) ? b : a]. *)
Definition max (a b : float) : float := if ltb a b then b else a.

(** [std::min(a, b)] is [(b < a) ? b : a]. *)
Definition min (a b : float) : float := if ltb b a then b else a.

(** The integral part of a float, rounding toward zero; a NaN and the
    infinities have none. *)
Definition trunc (f : float) : option Z :=
  match f with
  | S754_zero _ => Some 0
  | S754_finite s m e =>
      let mag := match e with
                 | Zneg p => Z.shiftr (Zpos m) (Zpos p)
                 | _ => Z.shiftl (Zpos m) e
                 end in
      Some (if s then - mag else mag)
  | S754_infinity _ | S754_nan => None
  end.

(** [static_cast<uint8_t>(f)]: the fractional part is discarded; the
    conversion is undefined ([None]) when the integral part does not fit
    the destination type. *)
Definition to_uint8 (f : float) : option Z :=
  match trunc f with
  | Some z => if (0 <=? z) && (z <? 256) then Some z else None
  | None => None
  end.

End Float32.

Abbreviation float := Float32.float.

(** ** Constants of ir_Electrolux.h *)

(** Modelled from the spec: [kElectroluxPO12FACStateLength] is declared in
    IRremoteESP8266.h, outside the two files embedded here; the frame is
    14 bytes long, the size of [kElectroluxPO12FACDefaultState]. *)
Definition kElectroluxPO12FACStateLength : nat := 14.

Definition kElectroluxPO12FACDefaultState : list Z :=
  [0x23; 0xCB; 0x26;
   0x01; 0x00; 0x24;
   0x03; 0x05; 0x02;
   0x00; 0x00; 0x1B;
   0x03; 0x61].

Definition kElectroluxPO12FACHeat : Z := 1.
Definition kElectroluxPO12FACDry : Z := 2.
Definition kElectroluxPO12FACCool : Z := 3.
Definition kElectroluxPO12FACFan : Z := 7.
Definition kElectroluxPO12FACAuto : Z := 8.

Definition kElectroluxPO12FACFanAuto : Z := 0.  (* 0b000 *)
Definition kElectroluxPO12FACFanLow : Z := 2.  (* 0b010 *)
Definition kElectroluxPO12FACFanMed : Z := 3.  (* 0b011 *)
Definition kElectroluxPO12FACFanHigh : Z := 5.  (* 0b101 *)
Definition kElectroluxPO12FACFanEco : Z := 1.  (* 0b001 *)

Definition kElectroluxPO12FACTempMax : float := Float32.of_int 28.
Definition kElectroluxPO12FACTempMin : float := Float32.of_int 18.

(** ** The command frame: union ElectroluxPO12FProtocol *)

(** The state [_]: its [raw] view. *)
Abbreviation frame := (list Z).

(** A named bit-field of the struct view. *)
Record bitfield : Type := BitField {
  bf_byte : nat;   (* index of the byte that holds the field *)
  bf_off : Z;      (* position of its least significant bit *)
  bf_width : Z     (* number of bits *)
}.

Definition Power : bitfield := BitField 5 2 1.
Definition Mode : bitfield := BitField 6 0 4.
Definition Turbo : bitfield := BitField 6 6 1.
Definition Follow : bitfield := BitField 6 7 1.
Definition Temp : bitfield := BitField 7 0 4.
Definition Fan : bitfield := BitField 8 0 3.
Definition Swing : bitfield := BitField 8 3 3.
Definition OffSleepTimer : bitfield := BitField 9 0 8.
Definition Sum : bitfield := BitField 13 0 8.

(** Extraction of [width] bits at [off] from a byte. *)
Definition get_bits (off width byte : Z) : Z :=
  Z.land (Z.shiftr byte off) (Z.ones width).

(** Replacement of [width] bits at [off] in a byte by the low [width] bits
    of [v]; the other bits are kept. *)
Definition set_bits (off width v byte : Z) : Z :=
  Z.lor (Z.ldiff byte (Z.shiftl (Z.ones width) off))
        (Z.shiftl (Z.land v (Z.ones width)) off).

(** [_.F] as an rvalue. *)
Definition rd (f : bitfield) (s : frame) : Z :=
  get_bits (bf_off f) (bf_width f) (s !!! bf_byte f).

(** [_.F = v]. *)
Definition wr (f : bitfield) (v : Z) (s : frame) : frame :=
  <[bf_byte f := set_bits (bf_off f) (bf_width f) v (s !!! bf_byte f)]> s.

(** Conversion of an integer to [bool]. *)
Definition to_bool (z : Z) : bool := negb (z =? 0).

(** [std::memcpy(dst, src, n)] on byte arrays. *)
Definition memcpy (dst src : list Z) (n : nat) : list Z :=
  list_inserts 0 (take n src) dst.

(** Modelled from the spec: [sumBytes] is a helper of IRutils.cpp, outside
    the two files embedded here.  It adds [length] bytes, starting at
    [start], to the 8-bit accumulator [init]: an unsigned sum modulo 256. *)
Definition sumBytes (start : list Z) (length : nat) (init : Z) : Z :=
  fold_left (fun checksum b => (checksum + b) mod 256) (take length start) init.

(** ** The generic A/C state: namespace stdAc (IRsend.h)

    IRsend.h lies outside the two files embedded here; its types are given
    with the enumerators and the fields that ir_Electrolux.cpp names. *)
Module stdAc.

(** Modelled from the spec: the generic operating modes, declared in
    IRsend.h. *)
Inductive opmode_t : Type :=
| opmode_kOff | opmode_kAuto | opmode_kCool | opmode_kHeat | opmode_kDry
| opmode_kFan.

(** Modelled from the spec: the generic fan speeds, declared in IRsend.h. *)
Inductive fanspeed_t : Type :=
| fanspeed_kAuto | fanspeed_kMin | fanspeed_kLow | fanspeed_kMedium
| fanspeed_kHigh | fanspeed_kMax.

(** Modelled from the spec: the generic vertical swing, declared in
    IRsend.h; the two positions that [toCommon] reports. *)
Inductive swingv_t : Type := swingv_kOff | swingv_kAuto.

(** Modelled from the spec: the generic horizontal swing, declared in
    IRsend.h; the two positions that [toCommon] reports. *)
Inductive swingh_t : Type := swingh_kOff | swingh_kAuto.

(** Modelled from the spec: the protocol identifiers, declared in
    IRremoteESP8266.h; the one of this protocol and the unknown one. *)
Inductive decode_type_t : Type := UNKNOWN | ELECTROLUX_PO12F_AC.

(** Modelled from the spec: the generic state, declared in IRsend.h, with
    the fields that [toCommon] fills. *)
Record state_t : Type := State {
  protocol : decode_type_t;
  model : Z;
  power : bool;
  mode : opmode_t;
  degrees : float;
  celsius : bool;
  fanspeed : fanspeed_t;
  swingv : swingv_t;
  swingh : swingh_t;
  quiet : bool;
  turbo : bool;
  econo : bool;
  light : bool;
  filter : bool;
  clean : bool;
  beep : bool;
  sleep : Z;
  clock : Z
}.

End stdAc.

(** ** class IRElectroluxPO12FAC

    A method is a function of the state [_]; a [void] method returns the
    state it leaves, a [const] method returns its result only. *)

(** Calculate the checksum for a given state. *)
Definition calcChecksum (state : list Z) (length : nat) : Z :=
  if negb (length =? 0)%nat
  then sumBytes state (length - 1) 0
  else 0.

(** Calculate and set the checksum for the current internal state. *)
Definition checksum (length : nat) (s : frame) : frame :=
  if (1 <? length)%nat
  then wr Sum (calcChecksum s length) s
  else s.

(** Verify the checksum is valid for a given state. *)
Definition validChecksum (state : list Z) (length : nat) : bool :=
  (1 <? length)%nat && (state !!! (length - 1)%nat =? calcChecksum state length).

(** Reset the internal state of the emulation. *)
Definition stateReset (s : frame) : frame :=
  memcpy s kElectroluxPO12FACDefaultState kElectroluxPO12FACStateLength.

(** Get a pointer to the internal state: the buffer handed out is the
    state itself, after [checksum()] with its default argument. *)
Definition getRaw (s : frame) : frame :=
  checksum kElectroluxPO12FACStateLength s.

(** Set the internal state from a code for this protocol. *)
Definition setRaw (new_code : list Z) (length : nat) (s : frame) : frame :=
  memcpy s new_code (Nat.min length kElectroluxPO12FACStateLength).

Definition setPower (on : bool) (s : frame) : frame := wr Power (Z.b2z on) s.
Definition getPower (s : frame) : bool := to_bool (rd Power s).

Definition getMode (s : frame) : Z := rd Mode s.

Definition setFan (speed : Z) (s : frame) : frame :=
  if (speed =? kElectroluxPO12FACFanAuto)
     || (speed =? kElectroluxPO12FACFanLow)
     || (speed =? kElectroluxPO12FACFanMed)
     || (speed =? kElectroluxPO12FACFanHigh)
  then wr Fan speed s
  else wr Fan kElectroluxPO12FACFanAuto s.

Definition getFan (s : frame) : Z := rd Fan s.

(** The [switch] of [setMode]: the [kElectroluxPO12FACFan] case runs
    [setFan] and falls through to the store shared with the other modes. *)
Definition setMode (mode : Z) (s : frame) : frame :=
  if mode =? kElectroluxPO12FACFan
  then wr Mode mode (setFan kElectroluxPO12FACFanHigh s)
  else if (mode =? kElectroluxPO12FACAuto)
          || (mode =? kElectroluxPO12FACCool)
          || (mode =? kElectroluxPO12FACHeat)
          || (mode =? kElectroluxPO12FACDry)
  then wr Mode mode s
  else wr Mode kElectroluxPO12FACAuto s.

(** Set the temperature.  [None] stands for the undefined conversion of a
    float without an 8-bit integral part (a NaN argument). *)
Definition setTemp (celsius : float) (s : frame) : option frame :=
  let safecelsius := Float32.max celsius kElectroluxPO12FACTempMin in
  let safecelsius := Float32.min safecelsius kElectroluxPO12FACTempMax in
  match Float32.to_uint8
          (Float32.add (Float32.sub kElectroluxPO12FACTempMax safecelsius)
                       (Float32.of_int 3)) with
  | Some t => Some (wr Temp t s)
  | None => None
  end.

(** Get the current temperature setting. *)
Definition getTemp (s : frame) : float :=
  let result :=
    Float32.sub (Float32.add kElectroluxPO12FACTempMax
                             (Float32.of_int (rd Temp s)))
                (Float32.of_int 3) in
  result.

Definition setEcono (on : bool) (s : frame) : frame :=
  if on then wr Fan kElectroluxPO12FACFanEco s else s.

Definition getEcono (s : frame) : bool :=
  rd Fan s =? kElectroluxPO12FACFanEco.

Definition setSwing (on : bool) (s : frame) : frame := wr Swing (Z.b2z on) s.
Definition getSwing (s : frame) : bool := to_bool (rd Swing s).

Definition setTurbo (on : bool) (s : frame) : option frame :=
  let s := wr Turbo (Z.b2z on) s in
  if on
  then setTemp (Float32.of_int 18) (wr Fan kElectroluxPO12FACFanHigh s)
  else Some s.

Definition getTurbo (s : frame) : bool := to_bool (rd Turbo s).

Definition setFollow (on : bool) (s : frame) : frame := wr Follow (Z.b2z on) s.
Definition getFollow (s : frame) : bool := to_bool (rd Follow s).

Definition setOffSleepTimer (hours : Z) (s : frame) : frame :=
  wr OffSleepTimer (hours * 6) s.

Definition getOffSleepTimer (s : frame) : Z := rd OffSleepTimer s.

(** Convert a stdAc::opmode_t enum into its native mode. *)
Definition convertMode (mode : stdAc.opmode_t) : Z :=
  match mode with
  | stdAc.opmode_kCool => kElectroluxPO12FACCool
  | stdAc.opmode_kHeat => kElectroluxPO12FACHeat
  | stdAc.opmode_kDry => kElectroluxPO12FACDry
  | stdAc.opmode_kFan => kElectroluxPO12FACFan
  | _ => kElectroluxPO12FACAuto
  end.

(** Convert a stdAc::fanspeed_t enum into its native speed. *)
Definition convertFan (speed : stdAc.fanspeed_t) : Z :=
  match speed with
  | stdAc.fanspeed_kMin | stdAc.fanspeed_kLow => kElectroluxPO12FACFanLow
  | stdAc.fanspeed_kMedium => kElectroluxPO12FACFanMed
  | stdAc.fanspeed_kHigh | stdAc.fanspeed_kMax => kElectroluxPO12FACFanHigh
  | _ => kElectroluxPO12FACFanAuto
  end.

(** Convert a native mode into its stdAc equivalent. *)
Definition toCommonMode (mode : Z) : stdAc.opmode_t :=
  if mode =? kElectroluxPO12FACCool then stdAc.opmode_kCool
  else if mode =? kElectroluxPO12FACHeat then stdAc.opmode_kHeat
  else if mode =? kElectroluxPO12FACDry then stdAc.opmode_kDry
  else if mode =? kElectroluxPO12FACFan then stdAc.opmode_kFan
  else stdAc.opmode_kAuto.

(** Convert a native fan speed into its stdAc equivalent. *)
Definition toCommonFanSpeed (spd : Z) : stdAc.fanspeed_t :=
  if spd =? kElectroluxPO12FACFanHigh then stdAc.fanspeed_kMax
  else if spd =? kElectroluxPO12FACFanMed then stdAc.fanspeed_kMedium
  else if spd =? kElectroluxPO12FACFanLow then stdAc.fanspeed_kMin
  else stdAc.fanspeed_kAuto.

(** Convert the current internal state into its stdAc::state_t equivalent. *)
Definition toCommon (s : frame) : stdAc.state_t :=
  {| stdAc.protocol := stdAc.ELECTROLUX_PO12F_AC;
     stdAc.model := -1;
     stdAc.power := to_bool (rd Power s);
     stdAc.mode := toCommonMode (rd Mode s);
     stdAc.celsius := true;
     stdAc.degrees := getTemp s;
     stdAc.fanspeed := toCommonFanSpeed (rd Fan s);
     stdAc.swingv := if to_bool (rd Swing s) then stdAc.swingv_kAuto
                     else stdAc.swingv_kOff;
     stdAc.swingh := if to_bool (rd Swing s) then stdAc.swingh_kAuto
                     else stdAc.swingh_kOff;
     stdAc.turbo := to_bool (rd Turbo s);
     stdAc.econo := getEcono s;
     stdAc.sleep := rd OffSleepTimer s;
     stdAc.light := false;
     stdAc.filter := false;
     stdAc.quiet := false;
     stdAc.clean := false;
     stdAc.beep := false;
     stdAc.clock := -1 |}.

(** Set the requested power state of the A/C to on. *)
Definition on (s : frame) : frame := setPower true s.

(** Set the requested power state of the A/C to off. *)
Definition off (s : frame) : frame := setPower false s.

(** ** Well-formed frames *)

(** A [uint8_t]. *)
Definition is_byte (b : Z) : Prop := 0 <= b < 256.

(** The array [raw]: [kElectroluxPO12FACStateLength] bytes. *)
Definition is_frame (s : frame) : Prop :=
  length s = kElectroluxPO12FACStateLength /\ Forall is_byte s.

(** A bit-field that lies within one byte of the frame. *)
Definition bitfield_ok (f : bitfield) : Prop :=
  (bf_byte f < kElectroluxPO12FACStateLength)%nat /\
  0 <= bf_off f /\ 0 <= bf_width f /\ bf_off f + bf_width f <= 8.

(** The sum of a list of bytes, as an unbounded integer. *)
Definition byte_sum (l : list Z) : Z := foldr Z.add 0 l.

(** The whole number of degrees [c] brought into the range 18 to 28. *)
Definition clamp_degrees (c : Z) : Z := Z.min (Z.max c 18) 28.

(** The fields with an enumerated or clamped encoding hold one of their
    values: Mode is Heat, Dry, Cool, Fan or Auto; Fan is Auto, Eco, Low,
    Medium or High; Temp is the code of a temperature from 28 down to 18. *)
Definition fields_valid (s : frame) : Prop :=
  (rd Mode s = kElectroluxPO12FACHeat \/ rd Mode s = kElectroluxPO12FACDry
   \/ rd Mode s = kElectroluxPO12FACCool \/ rd Mode s = kElectroluxPO12FACFan
   \/ rd Mode s = kElectroluxPO12FACAuto)
  /\ (rd Fan s = kElectroluxPO12FACFanAuto \/ rd Fan s = kElectroluxPO12FACFanEco
      \/ rd Fan s = kElectroluxPO12FACFanLow \/ rd Fan s = kElectroluxPO12FACFanMed
      \/ rd Fan s = kElectroluxPO12FACFanHigh)
  /\ 3 <= rd Temp s <= 13.

(** ** Sequences of calls

    A client of the class calls its methods one after the other on one
    object.  [call] names a call of a method that changes the state through
    the fields ([setRaw], which loads arbitrary bytes, is not among them),
    [run_call] is the method called and [run] a sequence of calls, which
    stops at the first call whose behaviour is undefined. *)
Inductive call : Type :=
| CallStateReset
| CallGetRaw
| CallOn
| CallOff
| CallSetPower (b : bool)
| CallSetMode (mode : Z)
| CallSetTemp (celsius : float)
| CallSetFan (speed : Z)
| CallSetEcono (b : bool)
| CallSetSwing (b : bool)
| CallSetTurbo (b : bool)
| CallSetFollow (b : bool)
| CallSetOffSleepTimer (hours : Z).

Definition run_call (c : call) (s : frame) : option frame :=
  match c with
  | CallStateReset => Some (stateReset s)
  | CallGetRaw => Some (getRaw s)
  | CallOn => Some (on s)
  | CallOff => Some (off s)
  | CallSetPower b => Some (setPower b s)
  | CallSetMode mode => Some (setMode mode s)
  | CallSetTemp celsius => setTemp celsius s
  | CallSetFan speed => Some (setFan speed s)
  | CallSetEcono b => Some (setEcono b s)
  | CallSetSwing b => Some (setSwing b s)
  | CallSetTurbo b => setTurbo b s
  | CallSetFollow b => Some (setFollow b s)
  | CallSetOffSleepTimer hours => Some (setOffSleepTimer hours s)
  end.

Fixpoint run (cs : list call) (s : frame) : option frame :=
  match cs with
  | [] => Some s
  | c :: cs' =>
      match run_call c s with
      | Some s' => run cs' s'
      | None => None
      end
  end.

(** * Properties *)

(** ** Bit-fields within a byte *)

Lemma byte_high_bits (b n : Z) : is_byte b -> 8 <= n -> Z.testbit b n = false.
Proof.
  intros [Hlo Hhi] Hn.
  destruct (Z.eq_dec b 0) as [->|Hnz]; [apply Z.testbit_0_l|].
  apply Z.bits_above_log2; [lia|].
  apply Z.lt_le_trans with 8; [|exact Hn].
  apply Z.log2_lt_pow2; [lia|]. change (2 ^ 8) with 256. exact Hhi.
Qed.

Lemma low_bits_byte (x : Z) : Z.land x (Z.ones 8) = x -> is_byte x.
Proof.
  intros H. unfold is_byte. rewrite <- H, Z.land_ones by lia.
  apply (Z.mod_pos_bound _ (2 ^ 8)). lia.
Qed.

Section Bits.

Variables off width : Z.
Hypothesis off_nonneg : 0 <= off.
Hypothesis width_nonneg : 0 <= width.

Lemma testbit_get_bits (b n : Z) :
  0 <= n ->
  Z.testbit (get_bits off width b) n = (n <? width) && Z.testbit b (n + off).
Proof using off_nonneg width_nonneg.
  intros Hn. unfold get_bits.
  rewrite Z.land_spec, Z.shiftr_spec, Z.testbit_ones_nonneg by lia.
  apply andb_comm.
Qed.

Lemma testbit_set_bits (v b n : Z) :
  0 <= n ->
  Z.testbit (set_bits off width v b) n =
    if (off <=? n) && (n <? off + width)
    then Z.testbit v (n - off)
    else Z.testbit b n.
Proof using off_nonneg width_nonneg.
  intros Hn. unfold set_bits.
  rewrite Z.lor_spec, Z.ldiff_spec, !Z.shiftl_spec, Z.land_spec by lia.
  destruct (Z.leb_spec off n) as [Hle|Hlt]; simpl.
  - rewrite !Z.testbit_ones_nonneg by lia.
    destruct (Z.ltb_spec n (off + width)), (Z.ltb_spec (n - off) width);
      try lia; simpl.
    + rewrite andb_false_r, andb_true_r. reflexivity.
    + rewrite andb_false_r, andb_true_r, orb_false_r. reflexivity.
  - rewrite !(Z.testbit_neg_r _ (n - off)) by lia. simpl.
    rewrite andb_true_r, orb_false_r. reflexivity.
Qed.

(** A field reads back what was stored, cut to its width. *)
Lemma get_set_bits (v b : Z) :
  get_bits off width (set_bits off width v b) = Z.land v (Z.ones width).
Proof using off_nonneg width_nonneg.
  apply Z.bits_inj'. intros n Hn.
  rewrite testbit_get_bits, testbit_set_bits, Z.land_spec,
    Z.testbit_ones_nonneg by lia.
  replace (n + off - off) with n by lia.
  destruct (Z.ltb_spec n width) as [Hlt|Hge]; simpl.
  - destruct (Z.leb_spec off (n + off)), (Z.ltb_spec (n + off) (off + width));
      try lia. simpl. rewrite andb_true_r. reflexivity.
  - rewrite andb_false_r. reflexivity.
Qed.

Lemma get_bits_range (b : Z) : 0 <= get_bits off width b < 2 ^ width.
Proof using width_nonneg.
  unfold get_bits. rewrite Z.land_ones by lia.
  apply Z.mod_pos_bound. apply Z.pow_pos_nonneg; lia.
Qed.

(** A store into a field of a byte leaves a byte. *)
Lemma set_bits_byte (v b : Z) :
  off + width <= 8 -> is_byte b -> is_byte (set_bits off width v b).
Proof using off_nonneg width_nonneg.
  intros Hfit Hb. apply low_bits_byte.
  apply Z.bits_inj'. intros n Hn.
  rewrite Z.land_spec, Z.testbit_ones_nonneg, testbit_set_bits by lia.
  destruct (Z.ltb_spec n 8) as [Hlt|Hge]; [apply andb_true_r|].
  rewrite andb_false_r.
  destruct (Z.leb_spec off n), (Z.ltb_spec n (off + width)); try lia; simpl;
    symmetry; apply byte_high_bits; assumption.
Qed.

End Bits.

(** A store into a field leaves the fields beside it in the same byte. *)
Lemma get_bits_set_bits_disjoint (off1 w1 off2 w2 v b : Z) :
  0 <= off1 -> 0 <= w1 -> 0 <= off2 -> 0 <= w2 ->
  off1 + w1 <= off2 \/ off2 + w2 <= off1 ->
  get_bits off1 w1 (set_bits off2 w2 v b) = get_bits off1 w1 b.
Proof.
  intros Ho1 Hw1 Ho2 Hw2 Hdisj. apply Z.bits_inj'. intros n Hn.
  rewrite !testbit_get_bits, testbit_set_bits by lia.
  destruct (Z.ltb_spec n w1) as [Hlt|Hge]; [simpl | reflexivity].
  destruct (Z.leb_spec off2 (n + off1)), (Z.ltb_spec (n + off1) (off2 + w2));
    simpl; try reflexivity; lia.
Qed.

(** A store into a field as wide as the byte replaces the byte. *)
Lemma set_bits_whole (v b : Z) : is_byte b -> set_bits 0 8 v b = v mod 256.
Proof.
  intros Hb. apply Z.bits_inj'. intros n Hn.
  rewrite testbit_set_bits by lia.
  change 256 with (2 ^ 8).
  rewrite <- Z.land_ones, Z.land_spec, Z.testbit_ones_nonneg by lia.
  rewrite Z.sub_0_r. change (0 + 8) with 8.
  destruct (Z.leb_spec 0 n); [|lia].
  destruct (Z.ltb_spec n 8) as [Hlt|Hge]; simpl.
  - rewrite andb_true_r. reflexivity.
  - rewrite andb_false_r. apply byte_high_bits; assumption.
Qed.

(** ** Reads and writes of the fields of a frame *)

Lemma bitfields_ok :
  bitfield_ok Power /\ bitfield_ok Mode /\ bitfield_ok Turbo /\
  bitfield_ok Follow /\ bitfield_ok Temp /\ bitfield_ok Fan /\
  bitfield_ok Swing /\ bitfield_ok OffSleepTimer /\ bitfield_ok Sum.
Proof.
  unfold bitfield_ok, kElectroluxPO12FACStateLength; simpl.
  repeat split; lia.
Qed.

Lemma length_wr (f : bitfield) (v : Z) (s : frame) :
  length (wr f v s) = length s.
Proof. unfold wr. apply length_insert. Qed.

Lemma wr_lookup_ne (f : bitfield) (v : Z) (s : frame) (i : nat) :
  i <> bf_byte f -> wr f v s !!! i = s !!! i.
Proof.
  intros Hne. unfold wr. apply list_lookup_total_insert_ne. congruence.
Qed.

Lemma wr_lookup_eq (f : bitfield) (v : Z) (s : frame) :
  (bf_byte f < length s)%nat ->
  wr f v s !!! bf_byte f
  = set_bits (bf_off f) (bf_width f) v (s !!! bf_byte f).
Proof. intros Hlt. unfold wr. apply list_lookup_total_insert_eq. exact Hlt. Qed.

(** Reading the field just written. *)
Lemma rd_wr (f : bitfield) (v : Z) (s : frame) :
  bitfield_ok f -> length s = kElectroluxPO12FACStateLength ->
  rd f (wr f v s) = Z.land v (Z.ones (bf_width f)).
Proof.
  intros (Hb & Hoff & Hw & _) Hlen. unfold rd.
  rewrite wr_lookup_eq by (rewrite Hlen; exact Hb).
  apply get_set_bits; assumption.
Qed.

(** A value that fits the field is read back unchanged. *)
Lemma rd_wr_fits (f : bitfield) (v : Z) (s : frame) :
  bitfield_ok f -> length s = kElectroluxPO12FACStateLength ->
  0 <= v < 2 ^ bf_width f ->
  rd f (wr f v s) = v.
Proof.
  intros Hok Hlen Hv. rewrite rd_wr by assumption.
  destruct Hok as (_ & _ & Hw & _).
  rewrite Z.land_ones by exact Hw. apply Z.mod_small. exact Hv.
Qed.

(** Reading a field that lives in another byte than the one written. *)
Lemma rd_wr_other (f g : bitfield) (v : Z) (s : frame) :
  bf_byte g <> bf_byte f -> rd g (wr f v s) = rd g s.
Proof. intros Hne. unfold rd. rewrite wr_lookup_ne by exact Hne. reflexivity. Qed.

(** Reading a field beside the one written, in the same byte. *)
Lemma rd_wr_beside (f g : bitfield) (v : Z) (s : frame) :
  bitfield_ok f -> bitfield_ok g ->
  length s = kElectroluxPO12FACStateLength ->
  bf_byte g = bf_byte f ->
  bf_off g + bf_width g <= bf_off f \/ bf_off f + bf_width f <= bf_off g ->
  rd g (wr f v s) = rd g s.
Proof.
  intros (Hb & Hof & Hwf & _) (_ & Hog & Hwg & _) Hlen Hsame Hdisj.
  unfold rd. rewrite Hsame.
  rewrite wr_lookup_eq by (rewrite Hlen; exact Hb).
  apply get_bits_set_bits_disjoint; assumption.
Qed.

Lemma rd_range (f : bitfield) (s : frame) :
  0 <= bf_width f -> 0 <= rd f s < 2 ^ bf_width f.
Proof. intros Hw. unfold rd. apply get_bits_range. exact Hw. Qed.

(** ** Frames stay frames *)

Lemma is_frame_wr (f : bitfield) (v : Z) (s : frame) :
  bitfield_ok f -> is_frame s -> is_frame (wr f v s).
Proof.
  intros (Hb & Hoff & Hw & Hfit) [Hlen Hbytes]. split.
  - rewrite length_wr. exact Hlen.
  - unfold wr. apply Forall_insert; [exact Hbytes|].
    apply set_bits_byte; try assumption.
    apply (Forall_lookup_total_1 is_byte s); [exact Hbytes|].
    rewrite Hlen. exact Hb.
Qed.

Lemma is_frame_memcpy (dst src : list Z) (n : nat) :
  is_frame dst -> Forall is_byte src -> is_frame (memcpy dst src n).
Proof.
  intros [Hlen Hbytes] Hsrc. unfold memcpy. split.
  - rewrite length_inserts. exact Hlen.
  - apply Forall_inserts; [exact Hbytes|]. apply Forall_take. exact Hsrc.
Qed.

Lemma default_state_bytes : Forall is_byte kElectroluxPO12FACDefaultState.
Proof.
  unfold kElectroluxPO12FACDefaultState, is_byte.
  repeat (apply Forall_cons; split; [lia|]). apply Forall_nil. exact I.
Qed.

Lemma default_state_frame : is_frame kElectroluxPO12FACDefaultState.
Proof. split; [reflexivity | exact default_state_bytes]. Qed.

(** A closed list is a frame: by evaluation. *)
Ltac frame_by_computation :=
  split;
  [ reflexivity
  | repeat (apply Forall_cons; split; [unfold is_byte; lia|]);
    apply Forall_nil; exact I ].

Create HintDb frames.

Lemma is_frame_stateReset (s : frame) : is_frame s -> is_frame (stateReset s).
Proof.
  intros Hs. apply is_frame_memcpy; [exact Hs | exact default_state_bytes].
Qed.

Lemma is_frame_checksum (n : nat) (s : frame) :
  is_frame s -> is_frame (checksum n s).
Proof.
  intros Hs. unfold checksum. destruct (1 <? n)%nat; [|exact Hs].
  apply is_frame_wr; [apply bitfields_ok | exact Hs].
Qed.

Lemma is_frame_getRaw (s : frame) : is_frame s -> is_frame (getRaw s).
Proof. apply is_frame_checksum. Qed.

Lemma is_frame_setRaw (new_code : list Z) (n : nat) (s : frame) :
  Forall is_byte new_code -> is_frame s -> is_frame (setRaw new_code n s).
Proof. intros Hc Hs. apply is_frame_memcpy; assumption. Qed.

Lemma is_frame_setPower (on : bool) (s : frame) :
  is_frame s -> is_frame (setPower on s).
Proof. apply is_frame_wr, bitfields_ok. Qed.

Lemma is_frame_setFan (speed : Z) (s : frame) :
  is_frame s -> is_frame (setFan speed s).
Proof.
  intros Hs. unfold setFan.
  destruct (_ || _); apply is_frame_wr; try apply bitfields_ok; exact Hs.
Qed.

Lemma is_frame_setMode (mode : Z) (s : frame) :
  is_frame s -> is_frame (setMode mode s).
Proof.
  intros Hs. unfold setMode.
  destruct (mode =? kElectroluxPO12FACFan);
    [apply is_frame_wr; [apply bitfields_ok | apply is_frame_setFan, Hs]|].
  destruct (_ || _); apply is_frame_wr; try apply bitfields_ok; exact Hs.
Qed.

Lemma is_frame_setTemp (celsius : float) (s s' : frame) :
  is_frame s -> setTemp celsius s = Some s' -> is_frame s'.
Proof.
  intros Hs. unfold setTemp. destruct (Float32.to_uint8 _); [|discriminate].
  intros [= <-]. apply is_frame_wr; [apply bitfields_ok | exact Hs].
Qed.

Lemma is_frame_setEcono (on : bool) (s : frame) :
  is_frame s -> is_frame (setEcono on s).
Proof.
  intros Hs. destruct on; simpl; [|exact Hs].
  apply is_frame_wr; [apply bitfields_ok | exact Hs].
Qed.

Lemma is_frame_setSwing (on : bool) (s : frame) :
  is_frame s -> is_frame (setSwing on s).
Proof. apply is_frame_wr, bitfields_ok. Qed.

Lemma is_frame_setTurbo (on : bool) (s s' : frame) :
  is_frame s -> setTurbo on s = Some s' -> is_frame s'.
Proof.
  intros Hs. unfold setTurbo. destruct on.
  - apply is_frame_setTemp.
    do 2 (apply is_frame_wr; [apply bitfields_ok|]). exact Hs.
  - intros [= <-]. apply is_frame_wr; [apply bitfields_ok | exact Hs].
Qed.

Lemma is_frame_setFollow (on : bool) (s : frame) :
  is_frame s -> is_frame (setFollow on s).
Proof. apply is_frame_wr, bitfields_ok. Qed.

Lemma is_frame_setOffSleepTimer (hours : Z) (s : frame) :
  is_frame s -> is_frame (setOffSleepTimer hours s).
Proof. apply is_frame_wr, bitfields_ok. Qed.

#[export] Hint Resolve default_state_frame default_state_bytes
  is_frame_stateReset is_frame_getRaw is_frame_setRaw is_frame_setPower
  is_frame_setFan is_frame_setMode is_frame_setEcono is_frame_setSwing
  is_frame_setFollow is_frame_setOffSleepTimer : frames.

(** ** The checksum *)

(** The 8-bit accumulator of [sumBytes] holds the sum modulo 256. *)
Lemma sumBytes_fold (l : list Z) (init : Z) :
  is_byte init ->
  fold_left (fun checksum b => (checksum + b) mod 256) l init
  = (init + byte_sum l) mod 256.
Proof.
  revert init. induction l as [|b l IH]; intros init Hinit; simpl.
  - rewrite Z.add_0_r. symmetry. apply Z.mod_small. exact Hinit.
  - rewrite IH by (apply Z.mod_pos_bound; lia).
    rewrite Zplus_mod_idemp_l. f_equal. lia.
Qed.

Lemma sumBytes_spec (start : list Z) (n : nat) :
  sumBytes start n 0 = byte_sum (take n start) mod 256.
Proof. unfold sumBytes. rewrite sumBytes_fold; [reflexivity | split; lia]. Qed.

Lemma calcChecksum_byte (state : list Z) (n : nat) :
  is_byte (calcChecksum state n).
Proof.
  unfold calcChecksum. destruct (n =? 0)%nat; simpl; [split; lia|].
  rewrite sumBytes_spec. apply Z.mod_pos_bound. lia.
Qed.

(** The checksum does not depend on the byte that stores it. *)
Lemma calcChecksum_wr_Sum (v : Z) (s : frame) :
  calcChecksum (wr Sum v s) kElectroluxPO12FACStateLength
  = calcChecksum s kElectroluxPO12FACStateLength.
Proof.
  unfold calcChecksum, sumBytes, wr; simpl.
  rewrite take_insert_ge by lia. reflexivity.
Qed.

Lemma calcChecksum_sum (state : list Z) (n : nat) :
  calcChecksum state n = byte_sum (take (n - 1) state) mod 256.
Proof.
  unfold calcChecksum. destruct n as [|n]; simpl; [reflexivity|].
  rewrite Nat.sub_0_r. apply sumBytes_spec.
Qed.

(** C2. [calcChecksum(buffer, length)] is the sum modulo 256 of the bytes
    at indices 0 to [length - 2], and 0 when [length] is 0;
    [validChecksum(buffer, length)] is true exactly when [length > 1] and
    the byte at index [length - 1] equals [calcChecksum(buffer, length)]. *)
Theorem calcChecksum_validChecksum_spec (buffer : list Z) (len : nat) :
  calcChecksum buffer len = byte_sum (take (len - 1) buffer) mod 256
  /\ (len = 0%nat -> calcChecksum buffer len = 0)
  /\ (validChecksum buffer len = true
      <-> (1 < len)%nat
          /\ buffer !!! (len - 1)%nat = calcChecksum buffer len).
Proof.
  split; [|split].
  - apply calcChecksum_sum.
  - intros ->. reflexivity.
  - unfold validChecksum. rewrite andb_true_iff, Nat.ltb_lt, Z.eqb_eq.
    reflexivity.
Qed.

(** C1. In every state [getRaw()] returns a 14-byte frame whose byte 13 is
    the sum modulo 256 of its bytes 0 to 12, so that [validChecksum] accepts
    it; this holds in particular after [setRaw] of the default state. *)
Theorem getRaw_checksum_valid (s : frame) :
  is_frame s ->
  length (getRaw s) = 14%nat
  /\ getRaw s !!! 13%nat = byte_sum (take 13 (getRaw s)) mod 256
  /\ getRaw s !!! 13%nat = calcChecksum (getRaw s) 14
  /\ validChecksum (getRaw s) 14 = true
  /\ validChecksum
       (getRaw (setRaw kElectroluxPO12FACDefaultState 14 s)) 14 = true.
Proof.
  assert (Hsum : forall t : frame, is_frame t ->
            getRaw t !!! 13%nat = calcChecksum (getRaw t) 14).
  { intros t [Hlen Hbytes]. unfold getRaw, checksum; simpl.
    change 14%nat with kElectroluxPO12FACStateLength.
    rewrite calcChecksum_wr_Sum.
    change 13%nat with (bf_byte Sum).
    rewrite wr_lookup_eq by (rewrite Hlen; simpl; unfold kElectroluxPO12FACStateLength; lia).
    simpl bf_off; simpl bf_width.
    rewrite set_bits_whole.
    - apply Z.mod_small, calcChecksum_byte.
    - apply (Forall_lookup_total_1 is_byte t); [exact Hbytes|].
      rewrite Hlen. simpl. unfold kElectroluxPO12FACStateLength. lia. }
  assert (Hvalid : forall t : frame, is_frame t ->
            validChecksum (getRaw t) 14 = true).
  { intros t Ht. unfold validChecksum. simpl.
    apply Z.eqb_eq. apply Hsum. exact Ht. }
  intros Hs. split; [|split; [|split; [|split]]].
  - apply is_frame_getRaw in Hs. apply Hs.
  - rewrite (Hsum s Hs).
    apply (calcChecksum_sum (getRaw s) 14).
  - apply Hsum, Hs.
  - apply Hvalid, Hs.
  - apply Hvalid. auto with frames.
Qed.

Lemma getRaw_checksum_valid_witness :
  is_frame kElectroluxPO12FACDefaultState
  /\ validChecksum (getRaw kElectroluxPO12FACDefaultState) 14 = true.
Proof.
  split; [frame_by_computation|].
  apply (getRaw_checksum_valid kElectroluxPO12FACDefaultState).
  frame_by_computation.
Defined.

(** ** Bulk copies *)

(** A copy within the bounds of both arrays replaces a prefix. *)
Lemma memcpy_take_drop (dst src : list Z) (n : nat) :
  (n <= length src)%nat -> (n <= length dst)%nat ->
  memcpy dst src n = take n src ++ drop n dst.
Proof.
  intros Hsrc Hdst. unfold memcpy.
  rewrite <- (take_drop n dst) at 1.
  apply list_inserts_0_r. rewrite !length_take. lia.
Qed.

(** C8. [setRaw(buffer, length)] copies the first [min(length, 14)] bytes
    of the buffer into the frame, from byte 0 on; every byte of the frame
    from index [min(length, 14)] on keeps its value.  The bytes copied are
    arbitrary: a whole buffer of 14 bytes becomes the frame as it is,
    whatever its checksum byte and its fields. *)
Theorem setRaw_copies_prefix (new_code : list Z) (len : nat) (s : frame) :
  is_frame s ->
  (Nat.min len 14 <= length new_code)%nat ->
  length (setRaw new_code len s) = 14%nat
  /\ (forall i : nat, (i < Nat.min len 14)%nat ->
        setRaw new_code len s !!! i = new_code !!! i)
  /\ (forall i : nat, (Nat.min len 14 <= i)%nat ->
        setRaw new_code len s !!! i = s !!! i)
  /\ setRaw new_code len s
     = take (Nat.min len 14) new_code ++ drop (Nat.min len 14) s
  /\ (length new_code = 14%nat -> (14 <= len)%nat ->
        setRaw new_code len s = new_code).
Proof.
  intros [Hlen _] Hsrc.
  unfold kElectroluxPO12FACStateLength in Hlen.
  assert (Heq : setRaw new_code len s
                = take (Nat.min len 14) new_code ++ drop (Nat.min len 14) s).
  { unfold setRaw, kElectroluxPO12FACStateLength.
    apply memcpy_take_drop; [exact Hsrc | lia]. }
  split; [|split; [|split; [|split]]].
  - unfold setRaw, memcpy. rewrite length_inserts. exact Hlen.
  - intros i Hi. unfold setRaw, memcpy, kElectroluxPO12FACStateLength.
    rewrite list_lookup_total_inserts
      by (rewrite ?length_take; lia).
    rewrite Nat.sub_0_r. apply lookup_total_take_lt. exact Hi.
  - intros i Hi. unfold setRaw, memcpy, kElectroluxPO12FACStateLength.
    apply list_lookup_total_inserts_ge. rewrite length_take. lia.
  - exact Heq.
  - intros Hcode Hge. rewrite Heq.
    replace (Nat.min len 14) with 14%nat by lia.
    rewrite take_ge, drop_ge by lia. apply app_nil_r.
Qed.

Lemma setRaw_copies_prefix_witness :
  is_frame kElectroluxPO12FACDefaultState
  /\ (Nat.min 3 14 <= length [0xAA; 0xBB; 0xCC])%nat
  /\ setRaw [0xAA; 0xBB; 0xCC] 3 kElectroluxPO12FACDefaultState
     = [0xAA; 0xBB; 0xCC; 0x01; 0x00; 0x24; 0x03; 0x05; 0x02;
        0x00; 0x00; 0x1B; 0x03; 0x61].
Proof.
  split; [frame_by_computation|]. split; [simpl; lia|].
  destruct (setRaw_copies_prefix [0xAA; 0xBB; 0xCC] 3
              kElectroluxPO12FACDefaultState) as (_ & _ & _ & H & _);
    [frame_by_computation | simpl; lia | ].
  rewrite H. reflexivity.
Defined.

(** A frame with a wrong checksum byte and a mode outside the enumeration
    is taken as it is. *)
Example setRaw_accepts_invalid :
  let bad := [0; 0; 0; 0; 0; 0; 0x0F; 0; 0; 0; 0; 0; 0; 0xFF] in
  validChecksum bad 14 = false
  /\ setRaw bad 14 kElectroluxPO12FACDefaultState = bad
  /\ getMode (setRaw bad 14 kElectroluxPO12FACDefaultState) = 15.
Proof. repeat split. Qed.

(** ** Power, mode, fan, economy and timer *)

Lemma getMode_wr_Mode (m : Z) (t : frame) :
  length t = kElectroluxPO12FACStateLength ->
  0 <= m < 16 -> getMode (wr Mode m t) = m.
Proof.
  intros Ht Hm. unfold getMode.
  apply rd_wr_fits; [apply bitfields_ok | exact Ht | simpl; lia].
Qed.

Section Fields.

Variable s : frame.
Hypothesis frame_s : is_frame s.

Lemma getFan_wr_Fan (v : Z) : 0 <= v < 8 -> getFan (wr Fan v s) = v.
Proof using frame_s.
  intros Hv. unfold getFan.
  apply rd_wr_fits; [apply bitfields_ok | apply frame_s | simpl; lia].
Qed.

Lemma getFan_setFan_High :
  getFan (setFan kElectroluxPO12FACFanHigh s) = kElectroluxPO12FACFanHigh.
Proof using frame_s.
  unfold setFan; simpl. apply getFan_wr_Fan.
  unfold kElectroluxPO12FACFanHigh. lia.
Qed.

Lemma getPower_setPower (on : bool) : getPower (setPower on s) = on.
Proof using frame_s.
  unfold getPower, setPower.
  rewrite rd_wr_fits;
    [ destruct on; reflexivity | apply bitfields_ok | apply frame_s
    | destruct on; simpl; lia ].
Qed.

End Fields.

(** C5. After [setMode(m)], [getMode()] is [m] when [m] is one of Heat (1),
    Dry (2), Cool (3), Fan (7), Auto (8), and Auto (8) for any other [m];
    when [m] is Fan (7), [getFan()] is High (5) as well. *)
Theorem setMode_getMode (m : Z) (s : frame) :
  is_frame s ->
  (m = kElectroluxPO12FACHeat \/ m = kElectroluxPO12FACDry
   \/ m = kElectroluxPO12FACCool \/ m = kElectroluxPO12FACFan
   \/ m = kElectroluxPO12FACAuto ->
   getMode (setMode m s) = m)
  /\ (m <> kElectroluxPO12FACHeat -> m <> kElectroluxPO12FACDry ->
      m <> kElectroluxPO12FACCool -> m <> kElectroluxPO12FACFan ->
      m <> kElectroluxPO12FACAuto ->
      getMode (setMode m s) = kElectroluxPO12FACAuto)
  /\ (m = kElectroluxPO12FACFan ->
      getFan (setMode m s) = kElectroluxPO12FACFanHigh).
Proof.
  intros Hs. pose proof Hs as [Hlen _]. split; [|split].
  - intros [ -> | [ -> | [ -> | [ -> | -> ] ] ] ]; unfold setMode; simpl;
      apply getMode_wr_Mode;
      rewrite ?length_wr; try exact Hlen; unfold kElectroluxPO12FACHeat,
        kElectroluxPO12FACDry, kElectroluxPO12FACCool, kElectroluxPO12FACFan,
        kElectroluxPO12FACAuto; try lia.
    unfold setFan; simpl. rewrite length_wr. exact Hlen.
  - intros H1 H2 H3 H7 H8. unfold setMode.
    rewrite (proj2 (Z.eqb_neq _ _) H1), (proj2 (Z.eqb_neq _ _) H2),
      (proj2 (Z.eqb_neq _ _) H3), (proj2 (Z.eqb_neq _ _) H7),
      (proj2 (Z.eqb_neq _ _) H8). simpl.
    apply getMode_wr_Mode; [exact Hlen | unfold kElectroluxPO12FACAuto; lia].
  - intros ->. unfold setMode; simpl. unfold getFan.
    rewrite rd_wr_other by (simpl; lia).
    apply getFan_setFan_High. exact Hs.
Qed.

Lemma setMode_getMode_witness :
  is_frame kElectroluxPO12FACDefaultState
  /\ getFan (setMode kElectroluxPO12FACFan kElectroluxPO12FACDefaultState)
     = kElectroluxPO12FACFanHigh.
Proof.
  split; [frame_by_computation|].
  apply (setMode_getMode kElectroluxPO12FACFan kElectroluxPO12FACDefaultState);
    [frame_by_computation | reflexivity].
Defined.

(** C7. In every state [setEcono(true)] makes [getEcono()] true: the fan
    field holds the Eco encoding (1).  A following [setEcono(false)] changes
    nothing in the frame, so [getFan()] is still Eco; [setEcono(false)]
    leaves any state as it is. *)
Theorem setEcono_one_way (s : frame) :
  is_frame s ->
  getEcono (setEcono true s) = true
  /\ getFan (setEcono true s) = kElectroluxPO12FACFanEco
  /\ setEcono false (setEcono true s) = setEcono true s
  /\ getFan (setEcono false (setEcono true s)) = kElectroluxPO12FACFanEco
  /\ setEcono false s = s.
Proof.
  intros Hs.
  assert (Hfan : getFan (setEcono true s) = kElectroluxPO12FACFanEco).
  { simpl. apply getFan_wr_Fan; [exact Hs|].
    unfold kElectroluxPO12FACFanEco. lia. }
  repeat split; try exact Hfan; try reflexivity.
  unfold getEcono. fold (getFan (setEcono true s)). rewrite Hfan. reflexivity.
Qed.

Lemma setEcono_one_way_witness :
  is_frame kElectroluxPO12FACDefaultState
  /\ getEcono (setEcono true kElectroluxPO12FACDefaultState) = true.
Proof.
  split; [frame_by_computation|].
  apply (setEcono_one_way kElectroluxPO12FACDefaultState).
  frame_by_computation.
Defined.

(** C10. [setOffSleepTimer(h)] stores [h * 6], cut to 8 bits, in the
    OffSleepTimer field (byte 9), and [getOffSleepTimer()] returns the
    stored value as it is; after [setOffSleepTimer(3)] it returns 18. *)
Theorem setOffSleepTimer_scaled (h : Z) (s : frame) :
  is_frame s ->
  getOffSleepTimer (setOffSleepTimer h s) = (h * 6) mod 256
  /\ setOffSleepTimer h s !!! 9%nat = (h * 6) mod 256
  /\ getOffSleepTimer (setOffSleepTimer h s) = setOffSleepTimer h s !!! 9%nat
  /\ getOffSleepTimer (setOffSleepTimer 3 s) = 18.
Proof.
  intros [Hlen Hbytes].
  assert (Hget : forall k, getOffSleepTimer (setOffSleepTimer k s)
                           = (k * 6) mod 256).
  { intros k. unfold getOffSleepTimer, setOffSleepTimer.
    rewrite rd_wr by (apply bitfields_ok || exact Hlen).
    simpl bf_width. rewrite Z.land_ones by lia. reflexivity. }
  assert (Hraw : setOffSleepTimer h s !!! 9%nat = (h * 6) mod 256).
  { unfold setOffSleepTimer. change 9%nat with (bf_byte OffSleepTimer).
    rewrite wr_lookup_eq
      by (rewrite Hlen; unfold kElectroluxPO12FACStateLength; simpl; lia).
    apply set_bits_whole.
    apply (Forall_lookup_total_1 is_byte s); [exact Hbytes|].
    rewrite Hlen. unfold kElectroluxPO12FACStateLength. simpl. lia. }
  split; [apply Hget|]. split; [exact Hraw|].
  split; [rewrite Hraw; apply Hget|].
  rewrite Hget. reflexivity.
Qed.

Lemma setOffSleepTimer_scaled_witness :
  is_frame kElectroluxPO12FACDefaultState
  /\ getOffSleepTimer (setOffSleepTimer 3 kElectroluxPO12FACDefaultState) = 18.
Proof.
  split; [frame_by_computation|].
  apply (setOffSleepTimer_scaled 3 kElectroluxPO12FACDefaultState).
  frame_by_computation.
Defined.

(** ** The projection to the generic state *)

(** The generic state follows the setters of power and mode. *)
Lemma toCommon_setPower (on : bool) (s : frame) :
  is_frame s -> stdAc.power (toCommon (setPower on s)) = on.
Proof. intros Hs. apply (getPower_setPower s Hs). Qed.

Lemma toCommon_setMode (m : stdAc.opmode_t) (s : frame) :
  is_frame s -> m <> stdAc.opmode_kOff ->
  stdAc.mode (toCommon (setMode (convertMode m) s)) = m.
Proof.
  intros [Hlen _] Hm. unfold toCommon; simpl.
  fold (getMode (setMode (convertMode m) s)).
  destruct m; try congruence; unfold setMode; simpl;
    rewrite getMode_wr_Mode; try reflexivity;
    rewrite ?length_wr; try exact Hlen; try (cbv; split; congruence).
  unfold setFan; simpl. rewrite length_wr. exact Hlen.
Qed.

(** Setting the mode keeps the turbo bit: the fields of byte 6 do not
    overlap. *)
Lemma setMode_keeps_Turbo (m : Z) (s : frame) :
  is_frame s -> getTurbo (setMode m s) = getTurbo s.
Proof.
  intros [Hlen _]. unfold getTurbo, setMode, setFan.
  destruct (m =? kElectroluxPO12FACFan); simpl;
    [|destruct (_ || _)];
    rewrite rd_wr_beside; try reflexivity;
    try apply bitfields_ok; rewrite ?length_wr; try exact Hlen;
    try (simpl; lia).
  rewrite rd_wr_other by (simpl; lia). reflexivity.
Qed.

(** ** Temperature *)

(** Two functions that agree on the table of an interval agree on it. *)
Lemma tabulated {A : Type} (f g : Z -> A) (m n : Z) :
  List.map f (seqZ m n) = List.map g (seqZ m n) ->
  forall z : Z, m <= z < m + n -> f z = g z.
Proof.
  intros Htab z Hz. apply (ext_in_map Htab).
  apply list_elem_of_In, elem_of_seqZ. exact Hz.
Qed.

(** The float arithmetic of [getTemp] on the 16 values of the Temp field
    is exact. *)
Lemma getTemp_decode (s : frame) :
  getTemp s = Float32.of_int (28 + rd Temp s - 3).
Proof.
  unfold getTemp.
  apply (tabulated
           (fun t => Float32.sub
                       (Float32.add kElectroluxPO12FACTempMax (Float32.of_int t))
                       (Float32.of_int 3))
           (fun t => Float32.of_int (28 + t - 3)) 0 16).
  - vm_compute. reflexivity.
  - apply (rd_range Temp s). simpl. lia.
Qed.

(** [getTemp()] is never below 25 degrees. *)
Lemma getTemp_at_least_25 (s : frame) :
  Float32.ltb (getTemp s) (Float32.of_int 25) = false.
Proof.
  rewrite getTemp_decode.
  apply (tabulated
           (fun t => Float32.ltb (Float32.of_int (28 + t - 3)) (Float32.of_int 25))
           (fun _ => false) 0 16).
  - vm_compute. reflexivity.
  - apply (rd_range Temp s). simpl. lia.
Qed.

(** The value that [setTemp] stores for a whole number of degrees. *)
Lemma setTemp_whole_degrees (c : Z) (s : frame) :
  -100 <= c <= 100 ->
  setTemp (Float32.of_int c) s = Some (wr Temp (28 - clamp_degrees c + 3) s).
Proof.
  intros Hc. unfold setTemp.
  rewrite (tabulated
             (fun c => Float32.to_uint8
                (Float32.add
                   (Float32.sub kElectroluxPO12FACTempMax
                      (Float32.min
                         (Float32.max (Float32.of_int c) kElectroluxPO12FACTempMin)
                         kElectroluxPO12FACTempMax))
                   (Float32.of_int 3)))
             (fun c => Some (28 - clamp_degrees c + 3)) (-100) 201);
    [reflexivity | vm_compute; reflexivity | lia].
Qed.

Lemma rd_Temp_wr (t : Z) (s : frame) :
  is_frame s -> 0 <= t < 16 -> rd Temp (wr Temp t s) = t.
Proof.
  intros [Hlen _] Ht.
  apply rd_wr_fits; [apply bitfields_ok | exact Hlen | simpl; lia].
Qed.

(** C3. [setTemp(c)] for a whole number of degrees [c] stores
    [28 - clamp(c, 18, 28) + 3] in the Temp field, and [getTemp()] returns
    [28 + raw - 3] for the stored [raw]: that is [56 - clamp(c, 18, 28)],
    which is [clamp(c, 18, 28)] only when [c] is 28 or more.  After
    [setTemp(24)], [getTemp()] returns 32. *)
Theorem setTemp_getTemp_whole_degrees (c : Z) (s : frame) :
  is_frame s ->
  -100 <= c <= 100 ->
  exists s' : frame,
    setTemp (Float32.of_int c) s = Some s'
    /\ rd Temp s' = 28 - clamp_degrees c + 3
    /\ getTemp s' = Float32.of_int (28 + rd Temp s' - 3)
    /\ getTemp s' = Float32.of_int (56 - clamp_degrees c)
    /\ (Float32.eqb (getTemp s') (Float32.of_int (clamp_degrees c)) = true
        <-> 28 <= c).
Proof.
  intros Hs Hc. eexists. split; [apply setTemp_whole_degrees, Hc|].
  assert (Hraw : rd Temp (wr Temp (28 - clamp_degrees c + 3) s)
                 = 28 - clamp_degrees c + 3)
    by (apply rd_Temp_wr; [exact Hs | unfold clamp_degrees; lia]).
  split; [exact Hraw|]. split; [apply getTemp_decode|].
  rewrite getTemp_decode, Hraw.
  replace (28 + (28 - clamp_degrees c + 3) - 3) with (56 - clamp_degrees c)
    by lia.
  split; [reflexivity|].
  assert (Hk : 18 <= clamp_degrees c <= 28) by (unfold clamp_degrees; lia).
  assert (Heq : 28 <= c <-> clamp_degrees c = 28)
    by (unfold clamp_degrees; lia).
  rewrite Heq.
  rewrite (tabulated
             (fun k => Float32.eqb (Float32.of_int (56 - k)) (Float32.of_int k))
             (fun k => k =? 28) 18 11);
    [apply Z.eqb_eq | vm_compute; reflexivity | lia].
Qed.

Lemma setTemp_getTemp_whole_degrees_witness :
  is_frame kElectroluxPO12FACDefaultState
  /\ -100 <= 24 <= 100
  /\ exists s' : frame,
       setTemp (Float32.of_int 24) kElectroluxPO12FACDefaultState = Some s'
       /\ getTemp s' = Float32.of_int 32.
Proof.
  split; [frame_by_computation|]. split; [lia|].
  destruct (setTemp_getTemp_whole_degrees 24 kElectroluxPO12FACDefaultState)
    as (s' & Hset & _ & _ & Hget & _); [frame_by_computation | lia |].
  exists s'. split; [exact Hset | exact Hget].
Defined.

(** The same run, evaluated: the frame after [stateReset()], then
    [setTemp(24)], then [getTemp()]. *)
Example setTemp_24_getTemp_32 :
  option_map getTemp
    (setTemp (Float32.of_int 24) kElectroluxPO12FACDefaultState)
  = Some (Float32.of_int 32)
  /\ Float32.eqb (Float32.of_int 32) (Float32.of_int 24) = false.
Proof. split; vm_compute; reflexivity. Qed.

(** ** The default frame *)

Lemma stateReset_is_default (s : frame) :
  is_frame s -> stateReset s = kElectroluxPO12FACDefaultState.
Proof.
  intros [Hlen _]. unfold stateReset.
  unfold kElectroluxPO12FACStateLength in *.
  rewrite memcpy_take_drop by (rewrite ?Hlen; simpl; lia).
  rewrite drop_ge by (rewrite Hlen; lia).
  reflexivity.
Qed.

(** C4. After [stateReset()] the frame is the default frame: [getPower()]
    is true and [getMode()] is Cool (3).  Its Temp field holds 5, for which
    [getTemp()] returns 30, not the 24 degrees that the comment of
    [stateReset] announces. *)
Theorem stateReset_getters (s : frame) :
  is_frame s ->
  stateReset s = kElectroluxPO12FACDefaultState
  /\ getPower (stateReset s) = true
  /\ getMode (stateReset s) = kElectroluxPO12FACCool
  /\ rd Temp (stateReset s) = 5
  /\ getTemp (stateReset s) = Float32.of_int 30
  /\ Float32.eqb (getTemp (stateReset s)) (Float32.of_int 24) = false.
Proof.
  intros Hs. rewrite (stateReset_is_default s Hs).
  repeat split; vm_compute; reflexivity.
Qed.

Lemma stateReset_getters_witness :
  is_frame (repeat 0 14)
  /\ getTemp (stateReset (repeat 0 14)) = Float32.of_int 30.
Proof.
  split; [frame_by_computation|].
  apply (stateReset_getters (repeat 0 14)). frame_by_computation.
Defined.

(** ** Turbo *)

(** C6. [setTurbo(true)] sets the Turbo bit and the fan speed High (5),
    and stores 13 in the Temp field, the code of [setTemp(18)]; for that
    code [getTemp()] returns 38, not 18. *)
Theorem setTurbo_true_effects (s : frame) :
  is_frame s ->
  exists s' : frame,
    setTurbo true s = Some s'
    /\ getTurbo s' = true
    /\ getFan s' = kElectroluxPO12FACFanHigh
    /\ rd Temp s' = 13
    /\ getTemp s' = Float32.of_int 38
    /\ Float32.eqb (getTemp s') (Float32.of_int 18) = false.
Proof.
  intros Hs. pose proof Hs as [Hlen _].
  assert (Hs1 : is_frame (wr Turbo (Z.b2z true) s))
    by (apply is_frame_wr; [apply bitfields_ok | exact Hs]).
  assert (Hs2 : is_frame
                  (wr Fan kElectroluxPO12FACFanHigh (wr Turbo (Z.b2z true) s)))
    by (apply is_frame_wr; [apply bitfields_ok | exact Hs1]).
  eexists. split.
  { unfold setTurbo. apply setTemp_whole_degrees. lia. }
  change (28 - clamp_degrees 18 + 3) with 13.
  assert (Hraw : rd Temp (wr Temp 13 (wr Fan kElectroluxPO12FACFanHigh
                                        (wr Turbo (Z.b2z true) s))) = 13)
    by (apply rd_Temp_wr; [exact Hs2 | lia]).
  split; [|split; [|split; [exact Hraw|]]].
  - unfold getTurbo. rewrite !rd_wr_other by (simpl; lia).
    rewrite rd_wr_fits;
      [reflexivity | apply bitfields_ok | exact Hlen | simpl; lia].
  - unfold getFan. rewrite rd_wr_other by (simpl; lia).
    apply (getFan_wr_Fan _ Hs1). unfold kElectroluxPO12FACFanHigh. lia.
  - rewrite getTemp_decode, Hraw. split; vm_compute; reflexivity.
Qed.

Lemma setTurbo_true_effects_witness :
  is_frame kElectroluxPO12FACDefaultState
  /\ exists s' : frame,
       setTurbo true kElectroluxPO12FACDefaultState = Some s'
       /\ getTemp s' = Float32.of_int 38.
Proof.
  split; [frame_by_computation|].
  destruct (setTurbo_true_effects kElectroluxPO12FACDefaultState)
    as (s' & Hset & _ & _ & _ & Hget & _); [frame_by_computation|].
  exists s'. split; [exact Hset | exact Hget].
Defined.

(** The same run, evaluated on the default frame. *)
Example setTurbo_true_default :
  setTurbo true kElectroluxPO12FACDefaultState
  = Some [0x23; 0xCB; 0x26; 0x01; 0x00; 0x24; 0x43; 0x0D; 0x05;
          0x00; 0x00; 0x1B; 0x03; 0x61]
  /\ option_map getTemp (setTurbo true kElectroluxPO12FACDefaultState)
     = Some (Float32.of_int 38).
Proof. split; vm_compute; reflexivity. Qed.

(** * Further properties of the codec *)

(** ** What a store into a field leaves alone *)

(** The bits of the byte outside the field are kept. *)
Lemma wr_keeps_bits (f : bitfield) (v : Z) (s : frame) (n : Z) :
  bitfield_ok f -> length s = kElectroluxPO12FACStateLength ->
  0 <= n -> n < bf_off f \/ bf_off f + bf_width f <= n ->
  Z.testbit (wr f v s !!! bf_byte f) n = Z.testbit (s !!! bf_byte f) n.
Proof.
  intros (Hb & Hoff & Hw & _) Hlen Hn Hout.
  rewrite wr_lookup_eq by (rewrite Hlen; exact Hb).
  rewrite testbit_set_bits by assumption.
  destruct (Z.leb_spec (bf_off f) n), (Z.ltb_spec n (bf_off f + bf_width f));
    simpl; try reflexivity; lia.
Qed.

(** The value that [setFan] stores. *)
Lemma setFan_stores (speed : Z) (s : frame) :
  exists v : Z,
    setFan speed s = wr Fan v s
    /\ (v = kElectroluxPO12FACFanAuto \/ v = kElectroluxPO12FACFanLow
        \/ v = kElectroluxPO12FACFanMed \/ v = kElectroluxPO12FACFanHigh)
    /\ (speed = kElectroluxPO12FACFanAuto \/ speed = kElectroluxPO12FACFanLow
        \/ speed = kElectroluxPO12FACFanMed
        \/ speed = kElectroluxPO12FACFanHigh -> v = speed)
    /\ (speed <> kElectroluxPO12FACFanAuto ->
        speed <> kElectroluxPO12FACFanLow ->
        speed <> kElectroluxPO12FACFanMed ->
        speed <> kElectroluxPO12FACFanHigh -> v = kElectroluxPO12FACFanAuto).
Proof.
  unfold setFan.
  destruct (Z.eqb_spec speed kElectroluxPO12FACFanAuto) as [->|H0]; simpl.
  { eexists; split; [reflexivity|]. repeat split; auto; congruence. }
  destruct (Z.eqb_spec speed kElectroluxPO12FACFanLow) as [->|H2]; simpl.
  { eexists; split; [reflexivity|]. repeat split; auto; congruence. }
  destruct (Z.eqb_spec speed kElectroluxPO12FACFanMed) as [->|H3]; simpl.
  { eexists; split; [reflexivity|]. repeat split; auto; congruence. }
  destruct (Z.eqb_spec speed kElectroluxPO12FACFanHigh) as [->|H5]; simpl.
  { eexists; split; [reflexivity|]. repeat split; auto; congruence. }
  eexists; split; [reflexivity|]. repeat split; auto.
  intros [?|[?|[?|?]]]; congruence.
Qed.

(** The value that [setMode] stores, and the frame it stores it in. *)
Lemma setMode_stores (mode : Z) (s : frame) :
  exists (v : Z) (t : frame),
    setMode mode s = wr Mode v t
    /\ (v = kElectroluxPO12FACHeat \/ v = kElectroluxPO12FACDry
        \/ v = kElectroluxPO12FACCool \/ v = kElectroluxPO12FACFan
        \/ v = kElectroluxPO12FACAuto)
    /\ (t = s /\ mode <> kElectroluxPO12FACFan
        \/ t = wr Fan kElectroluxPO12FACFanHigh s
           /\ mode = kElectroluxPO12FACFan).
Proof.
  unfold setMode.
  destruct (Z.eqb_spec mode kElectroluxPO12FACFan) as [->|H7].
  { do 2 eexists; split; [reflexivity|]. split; [auto|right; auto]. }
  destruct (Z.eqb_spec mode kElectroluxPO12FACAuto) as [->|H8]; simpl.
  { do 2 eexists; split; [reflexivity|]. split; [auto 6|left; auto]. }
  destruct (Z.eqb_spec mode kElectroluxPO12FACCool) as [->|H3]; simpl.
  { do 2 eexists; split; [reflexivity|]. split; [auto 6|left; auto]. }
  destruct (Z.eqb_spec mode kElectroluxPO12FACHeat) as [->|H1]; simpl.
  { do 2 eexists; split; [reflexivity|]. split; [auto 6|left; auto]. }
  destruct (Z.eqb_spec mode kElectroluxPO12FACDry) as [->|H2]; simpl.
  { do 2 eexists; split; [reflexivity|]. split; [auto 6|left; auto]. }
  do 2 eexists; split; [reflexivity|]. split; [auto 6|left; auto].
Qed.

(** X1. [setFan] stores the speed asked for when it is Auto, Low, Medium or
    High, and Auto for any other value, the Eco encoding included: after
    [setFan], [getFan()] is one of the four speeds and [getEcono()] is
    false.  The swing field, in the same byte, and the other bytes of the
    frame are kept. *)
Theorem setFan_getFan (speed : Z) (s : frame) :
  is_frame s ->
  (speed = kElectroluxPO12FACFanAuto \/ speed = kElectroluxPO12FACFanLow
   \/ speed = kElectroluxPO12FACFanMed \/ speed = kElectroluxPO12FACFanHigh ->
   getFan (setFan speed s) = speed)
  /\ (speed <> kElectroluxPO12FACFanAuto -> speed <> kElectroluxPO12FACFanLow ->
      speed <> kElectroluxPO12FACFanMed -> speed <> kElectroluxPO12FACFanHigh ->
      getFan (setFan speed s) = kElectroluxPO12FACFanAuto)
  /\ getEcono (setFan speed s) = false
  /\ getSwing (setFan speed s) = getSwing s
  /\ (forall i : nat, i <> 8%nat -> setFan speed s !!! i = s !!! i)
  /\ rd Swing (setFan speed s) = rd Swing s
  /\ (forall n : Z, 3 <= n ->
        Z.testbit (setFan speed s !!! 8%nat) n = Z.testbit (s !!! 8%nat) n).
Proof.
  intros Hs. pose proof Hs as [Hlen _].
  destruct (setFan_stores speed s) as (v & -> & Hv & Hsame & Hother).
  assert (Hswing : rd Swing (wr Fan v s) = rd Swing s)
    by (apply rd_wr_beside; try apply bitfields_ok; try exact Hlen;
        [reflexivity | simpl; lia]).
  assert (Hbits : forall n : Z, 3 <= n ->
            Z.testbit (wr Fan v s !!! 8%nat) n = Z.testbit (s !!! 8%nat) n)
    by (intros n Hn; apply (wr_keeps_bits Fan);
        [apply bitfields_ok | exact Hlen | lia | simpl; lia]).
  cut (((speed = kElectroluxPO12FACFanAuto \/ speed = kElectroluxPO12FACFanLow
         \/ speed = kElectroluxPO12FACFanMed
         \/ speed = kElectroluxPO12FACFanHigh ->
         getFan (wr Fan v s) = speed)
        /\ (speed <> kElectroluxPO12FACFanAuto ->
            speed <> kElectroluxPO12FACFanLow ->
            speed <> kElectroluxPO12FACFanMed ->
            speed <> kElectroluxPO12FACFanHigh ->
            getFan (wr Fan v s) = kElectroluxPO12FACFanAuto)
        /\ getEcono (wr Fan v s) = false
        /\ getSwing (wr Fan v s) = getSwing s
        /\ (forall i : nat, i <> 8%nat -> wr Fan v s !!! i = s !!! i))).
  { intros (H1 & H2 & H3 & H4 & H5). repeat (split; [assumption|]).
    exact Hbits. }
  assert (Hget : getFan (wr Fan v s) = v).
  { apply getFan_wr_Fan; [exact Hs|].
    unfold kElectroluxPO12FACFanAuto, kElectroluxPO12FACFanLow,
      kElectroluxPO12FACFanMed, kElectroluxPO12FACFanHigh in Hv. lia. }
  split; [|split; [|split; [|split]]].
  - intros Hin. rewrite Hget. apply Hsame, Hin.
  - intros H0 H2 H3 H5. rewrite Hget. apply Hother; assumption.
  - unfold getEcono. fold (getFan (wr Fan v s)). rewrite Hget.
    unfold kElectroluxPO12FACFanAuto, kElectroluxPO12FACFanLow,
      kElectroluxPO12FACFanMed, kElectroluxPO12FACFanHigh,
      kElectroluxPO12FACFanEco in *.
    apply Z.eqb_neq. lia.
  - unfold getSwing. f_equal.
    apply rd_wr_beside; try apply bitfields_ok; try exact Hlen;
      [reflexivity | simpl; lia].
  - intros i Hi. apply wr_lookup_ne. exact Hi.
Qed.

Lemma setFan_getFan_witness :
  is_frame kElectroluxPO12FACDefaultState
  /\ getEcono (setFan kElectroluxPO12FACFanEco kElectroluxPO12FACDefaultState)
     = false.
Proof.
  split; [frame_by_computation|].
  apply (setFan_getFan kElectroluxPO12FACFanEco kElectroluxPO12FACDefaultState).
  frame_by_computation.
Defined.

(** X2. [setPower], [on] and [off] store the flag that [getPower()] returns,
    in bit 2 of byte 5: the other bits of that byte and the other bytes of
    the frame are kept. *)
Theorem setPower_getPower (b : bool) (s : frame) :
  is_frame s ->
  getPower (setPower b s) = b
  /\ getPower (on s) = true
  /\ getPower (off s) = false
  /\ (forall i : nat, i <> 5%nat -> setPower b s !!! i = s !!! i)
  /\ (forall n : Z, 0 <= n -> n <> 2 ->
        Z.testbit (setPower b s !!! 5%nat) n = Z.testbit (s !!! 5%nat) n).
Proof.
  intros Hs. pose proof Hs as [Hlen _].
  split; [apply getPower_setPower, Hs|].
  split; [apply (getPower_setPower s Hs true)|].
  split; [apply (getPower_setPower s Hs false)|].
  split.
  - intros i Hi. apply wr_lookup_ne. exact Hi.
  - intros n Hn Hne. apply (wr_keeps_bits Power);
      [apply bitfields_ok | exact Hlen | exact Hn | simpl; lia].
Qed.

Lemma setPower_getPower_witness :
  is_frame kElectroluxPO12FACDefaultState
  /\ getPower (off kElectroluxPO12FACDefaultState) = false.
Proof.
  split; [frame_by_computation|].
  apply (setPower_getPower false kElectroluxPO12FACDefaultState).
  frame_by_computation.
Defined.

(** A field of a byte other than 6 and 8 is out of the reach of
    [setMode]. *)
Lemma rd_setMode_other (g : bitfield) (mode : Z) (s : frame) :
  bf_byte g <> 6%nat -> bf_byte g <> 8%nat ->
  rd g (setMode mode s) = rd g s.
Proof.
  intros H6 H8.
  destruct (setMode_stores mode s) as (v & t & -> & _ & [[-> _]|[-> _]]);
    rewrite !rd_wr_other by (simpl; assumption); reflexivity.
Qed.

(** X3. [setMode] changes the mode and, for the Fan mode, the fan speed, and
    nothing else: the turbo and follow flags, which share byte 6 with the
    mode, the power flag, the temperature, the swing flag and the timer are
    kept, and so is the fan speed for every mode but Fan. *)
Theorem setMode_keeps_other_fields (mode : Z) (s : frame) :
  is_frame s ->
  getTurbo (setMode mode s) = getTurbo s
  /\ getFollow (setMode mode s) = getFollow s
  /\ getPower (setMode mode s) = getPower s
  /\ getTemp (setMode mode s) = getTemp s
  /\ getSwing (setMode mode s) = getSwing s
  /\ getOffSleepTimer (setMode mode s) = getOffSleepTimer s
  /\ (mode <> kElectroluxPO12FACFan -> getFan (setMode mode s) = getFan s)
  /\ (forall i : nat, i <> 6%nat -> i <> 8%nat ->
        setMode mode s !!! i = s !!! i)
  /\ (forall n : Z, 4 <= n ->
        Z.testbit (setMode mode s !!! 6%nat) n = Z.testbit (s !!! 6%nat) n)
  /\ (forall n : Z, 3 <= n ->
        Z.testbit (setMode mode s !!! 8%nat) n = Z.testbit (s !!! 8%nat) n)
  /\ (mode <> kElectroluxPO12FACFan ->
      setMode mode s !!! 8%nat = s !!! 8%nat).
Proof.
  intros Hs. pose proof Hs as [Hlen _].
  assert (Hbytes : (forall i : nat, i <> 6%nat -> i <> 8%nat ->
                      setMode mode s !!! i = s !!! i)
                   /\ (forall n : Z, 4 <= n ->
                         Z.testbit (setMode mode s !!! 6%nat) n
                         = Z.testbit (s !!! 6%nat) n)
                   /\ (forall n : Z, 3 <= n ->
                         Z.testbit (setMode mode s !!! 8%nat) n
                         = Z.testbit (s !!! 8%nat) n)
                   /\ (mode <> kElectroluxPO12FACFan ->
                       setMode mode s !!! 8%nat = s !!! 8%nat)).
  { destruct (setMode_stores mode s) as (v & t & -> & _ & [[-> Hne]|[-> Heq]]).
    - split; [intros i H6 H8; apply wr_lookup_ne; exact H6|].
      split; [intros n Hn; apply (wr_keeps_bits Mode);
              [apply bitfields_ok | exact Hlen | lia | simpl; lia]|].
      split; [intros n Hn; rewrite wr_lookup_ne by (simpl; lia); reflexivity|].
      intros _. apply wr_lookup_ne. simpl. lia.
    - split; [intros i H6 H8; rewrite !wr_lookup_ne by assumption;
              reflexivity|].
      split.
      { intros n Hn.
        rewrite (wr_keeps_bits Mode)
          by (apply bitfields_ok || (rewrite ?length_wr; exact Hlen)
              || lia || (simpl; lia)).
        rewrite wr_lookup_ne by (simpl; lia). reflexivity. }
      split; [|intros Hne; contradiction].
      intros n Hn. rewrite wr_lookup_ne by (simpl; lia).
      apply (wr_keeps_bits Fan);
        [apply bitfields_ok | exact Hlen | lia | simpl; lia]. }
  cut (getTurbo (setMode mode s) = getTurbo s
       /\ getFollow (setMode mode s) = getFollow s
       /\ getPower (setMode mode s) = getPower s
       /\ getTemp (setMode mode s) = getTemp s
       /\ getSwing (setMode mode s) = getSwing s
       /\ getOffSleepTimer (setMode mode s) = getOffSleepTimer s
       /\ (mode <> kElectroluxPO12FACFan ->
           getFan (setMode mode s) = getFan s)).
  { intros (H1 & H2 & H3 & H4 & H5 & H6 & H7).
    repeat (split; [assumption|]). exact Hbytes. }
  split; [apply setMode_keeps_Turbo, Hs|].
  split.
  { unfold getFollow. f_equal.
    destruct (setMode_stores mode s) as (v & t & -> & _ & [[-> _]|[-> _]]).
    - apply rd_wr_beside; try apply bitfields_ok; try exact Hlen;
        [reflexivity | simpl; lia].
    - rewrite rd_wr_beside; try apply bitfields_ok;
        [ apply rd_wr_other; simpl; lia | rewrite length_wr; exact Hlen
        | reflexivity | simpl; lia ]. }
  split; [unfold getPower; f_equal; apply rd_setMode_other; simpl; lia|].
  split; [unfold getTemp; rewrite rd_setMode_other by (simpl; lia);
          reflexivity|].
  split.
  { unfold getSwing. f_equal.
    destruct (setMode_stores mode s) as (v & t & -> & _ & [[-> _]|[-> _]]);
      rewrite rd_wr_other by (simpl; lia); [reflexivity|].
    apply rd_wr_beside; try apply bitfields_ok; try exact Hlen;
      [reflexivity | simpl; lia]. }
  split; [unfold getOffSleepTimer; apply rd_setMode_other; simpl; lia|].
  intros Hne. unfold getFan.
  destruct (setMode_stores mode s) as (v & t & -> & _ & [[-> _]|[_ Heq]]);
    [|contradiction].
  apply rd_wr_other. simpl. lia.
Qed.

Lemma setMode_keeps_other_fields_witness :
  is_frame kElectroluxPO12FACDefaultState
  /\ getFollow (setMode 200 kElectroluxPO12FACDefaultState)
     = getFollow kElectroluxPO12FACDefaultState.
Proof.
  split; [frame_by_computation|].
  apply (setMode_keeps_other_fields 200 kElectroluxPO12FACDefaultState).
  frame_by_computation.
Defined.

(** A flag stored in a field is read back. *)
Lemma to_bool_rd_wr_flag (f : bitfield) (b : bool) (s : frame) :
  bitfield_ok f -> 1 <= bf_width f ->
  length s = kElectroluxPO12FACStateLength ->
  rd f (wr f (Z.b2z b) s) = Z.b2z b.
Proof.
  intros Hok Hw Hlen. apply rd_wr_fits; try assumption.
  assert (2 ^ 1 <= 2 ^ bf_width f) by (apply Z.pow_le_mono_r; lia).
  destruct b; simpl; lia.
Qed.

(** X4. [setFollow] stores the flag that [getFollow()] returns, in bit 7 of
    byte 6, beside the mode and the turbo flag, which are kept, as are the
    other bytes of the frame. *)
Theorem setFollow_getFollow (b : bool) (s : frame) :
  is_frame s ->
  getFollow (setFollow b s) = b
  /\ getTurbo (setFollow b s) = getTurbo s
  /\ getMode (setFollow b s) = getMode s
  /\ (forall i : nat, i <> 6%nat -> setFollow b s !!! i = s !!! i).
Proof.
  intros [Hlen _]. unfold getFollow, getTurbo, getMode, setFollow.
  split.
  { rewrite to_bool_rd_wr_flag;
      [destruct b; reflexivity | apply bitfields_ok | simpl; lia | exact Hlen]. }
  split; [f_equal|split].
  - apply rd_wr_beside; try apply bitfields_ok; try exact Hlen;
      [reflexivity | simpl; lia].
  - apply rd_wr_beside; try apply bitfields_ok; try exact Hlen;
      [reflexivity | simpl; lia].
  - intros i Hi. apply wr_lookup_ne. exact Hi.
Qed.

Lemma setFollow_getFollow_witness :
  is_frame kElectroluxPO12FACDefaultState
  /\ getFollow (setFollow true kElectroluxPO12FACDefaultState) = true.
Proof.
  split; [frame_by_computation|].
  apply (setFollow_getFollow true kElectroluxPO12FACDefaultState).
  frame_by_computation.
Defined.

(** X5. [setSwing] stores 1 or 0 in the 3-bit Swing field, [getSwing()] reads
    the flag back, and the fan speed, in the same byte, and the other bytes
    are kept.  [getSwing()] is true for every non-zero value of the field,
    so also for a frame received with the three bits set. *)
Theorem setSwing_getSwing (b : bool) (s : frame) :
  is_frame s ->
  getSwing (setSwing b s) = b
  /\ rd Swing (setSwing b s) = Z.b2z b
  /\ getFan (setSwing b s) = getFan s
  /\ (forall i : nat, i <> 8%nat -> setSwing b s !!! i = s !!! i)
  /\ (getSwing s = true <-> rd Swing s <> 0).
Proof.
  intros [Hlen _]. unfold getSwing, getFan, setSwing.
  assert (Hrd : rd Swing (wr Swing (Z.b2z b) s) = Z.b2z b)
    by (apply to_bool_rd_wr_flag; [apply bitfields_ok | simpl; lia | exact Hlen]).
  split; [rewrite Hrd; destruct b; reflexivity|].
  split; [exact Hrd|]. split; [|split].
  - apply rd_wr_beside; try apply bitfields_ok; try exact Hlen;
      [reflexivity | simpl; lia].
  - intros i Hi. apply wr_lookup_ne. exact Hi.
  - unfold to_bool. rewrite negb_true_iff. apply Z.eqb_neq.
Qed.

Lemma setSwing_getSwing_witness :
  is_frame kElectroluxPO12FACDefaultState
  /\ rd Swing (setSwing true kElectroluxPO12FACDefaultState) = 1.
Proof.
  split; [frame_by_computation|].
  apply (setSwing_getSwing true kElectroluxPO12FACDefaultState).
  frame_by_computation.
Defined.

(** X6. [setTurbo(false)] clears the turbo flag and nothing else: the fan speed
    and the temperature that [setTurbo(true)] forced are not restored, and
    every byte but byte 6 is kept. *)
Theorem setTurbo_false_effects (s : frame) :
  is_frame s ->
  exists s' : frame,
    setTurbo false s = Some s'
    /\ getTurbo s' = false
    /\ getMode s' = getMode s
    /\ getFollow s' = getFollow s
    /\ getFan s' = getFan s
    /\ getTemp s' = getTemp s
    /\ (forall i : nat, i <> 6%nat -> s' !!! i = s !!! i)
    /\ (forall n : Z, 0 <= n -> n <> 6 ->
          Z.testbit (s' !!! 6%nat) n = Z.testbit (s !!! 6%nat) n).
Proof.
  intros [Hlen _]. eexists. split; [reflexivity|].
  unfold getTurbo, getMode, getFollow, getFan, getTemp.
  split.
  { rewrite (to_bool_rd_wr_flag Turbo false);
      [reflexivity | apply bitfields_ok | simpl; lia | exact Hlen]. }
  split; [|split; [f_equal|split; [|split; [|split]]]];
    [| | | | |intros n Hn Hne; apply (wr_keeps_bits Turbo);
               [apply bitfields_ok | exact Hlen | exact Hn | simpl; lia]].
  - apply rd_wr_beside; try apply bitfields_ok; try exact Hlen;
      [reflexivity | simpl; lia].
  - apply rd_wr_beside; try apply bitfields_ok; try exact Hlen;
      [reflexivity | simpl; lia].
  - apply rd_wr_other. simpl. lia.
  - rewrite rd_wr_other by (simpl; lia). reflexivity.
  - intros i Hi. apply wr_lookup_ne. exact Hi.
Qed.

Lemma setTurbo_false_effects_witness :
  is_frame kElectroluxPO12FACDefaultState
  /\ exists s' : frame,
       setTurbo false kElectroluxPO12FACDefaultState = Some s'
       /\ getTurbo s' = false.
Proof.
  split; [frame_by_computation|].
  destruct (setTurbo_false_effects kElectroluxPO12FACDefaultState)
    as (s' & Hset & Hget & _); [frame_by_computation|].
  exists s'. split; [exact Hset | exact Hget].
Defined.

(** ** Conversions between native and generic values *)

(** X7. Every generic mode but Off survives the trip through the native mode;
    Off comes back as Auto.  In the other direction a native mode comes
    back unchanged exactly when it is one of the five modes of the
    protocol, and as Auto (8) otherwise. *)
Theorem convertMode_toCommonMode (m : stdAc.opmode_t) (x : Z) :
  (m <> stdAc.opmode_kOff -> toCommonMode (convertMode m) = m)
  /\ toCommonMode (convertMode stdAc.opmode_kOff) = stdAc.opmode_kAuto
  /\ (x = kElectroluxPO12FACHeat \/ x = kElectroluxPO12FACDry
      \/ x = kElectroluxPO12FACCool \/ x = kElectroluxPO12FACFan
      \/ x = kElectroluxPO12FACAuto ->
      convertMode (toCommonMode x) = x)
  /\ (x <> kElectroluxPO12FACHeat -> x <> kElectroluxPO12FACDry ->
      x <> kElectroluxPO12FACCool -> x <> kElectroluxPO12FACFan ->
      convertMode (toCommonMode x) = kElectroluxPO12FACAuto).
Proof.
  split; [destruct m; intros Hm; try reflexivity; congruence|].
  split; [reflexivity|]. split.
  - intros [ -> | [ -> | [ -> | [ -> | -> ] ] ] ]; reflexivity.
  - intros H1 H2 H3 H7. unfold toCommonMode.
    rewrite (proj2 (Z.eqb_neq _ _) H1), (proj2 (Z.eqb_neq _ _) H2),
      (proj2 (Z.eqb_neq _ _) H3), (proj2 (Z.eqb_neq _ _) H7).
    reflexivity.
Qed.

Lemma convertMode_toCommonMode_witness :
  stdAc.opmode_kDry <> stdAc.opmode_kOff
  /\ toCommonMode (convertMode stdAc.opmode_kDry) = stdAc.opmode_kDry.
Proof.
  split; [discriminate|].
  apply (convertMode_toCommonMode stdAc.opmode_kDry 0). discriminate.
Defined.

(** X8. The generic fan speeds Min and Low both become the native Low, and
    High and Max both become the native High, so the trip through the
    native speed returns Min for Low and Max for High.  A native speed
    comes back unchanged when it is Auto, Low, Medium or High, and as Auto
    otherwise: the Eco encoding is reported as Auto. *)
Theorem convertFan_toCommonFanSpeed (sp : stdAc.fanspeed_t) (x : Z) :
  toCommonFanSpeed (convertFan sp)
  = match sp with
    | stdAc.fanspeed_kLow => stdAc.fanspeed_kMin
    | stdAc.fanspeed_kHigh => stdAc.fanspeed_kMax
    | _ => sp
    end
  /\ (x = kElectroluxPO12FACFanAuto \/ x = kElectroluxPO12FACFanLow
      \/ x = kElectroluxPO12FACFanMed \/ x = kElectroluxPO12FACFanHigh ->
      convertFan (toCommonFanSpeed x) = x)
  /\ (x <> kElectroluxPO12FACFanLow -> x <> kElectroluxPO12FACFanMed ->
      x <> kElectroluxPO12FACFanHigh ->
      convertFan (toCommonFanSpeed x) = kElectroluxPO12FACFanAuto)
  /\ toCommonFanSpeed kElectroluxPO12FACFanEco = stdAc.fanspeed_kAuto.
Proof.
  split; [destruct sp; reflexivity|]. split; [|split; [|reflexivity]].
  - intros [ -> | [ -> | [ -> | -> ] ] ]; reflexivity.
  - intros H2 H3 H5. unfold toCommonFanSpeed.
    rewrite (proj2 (Z.eqb_neq _ _) H2), (proj2 (Z.eqb_neq _ _) H3),
      (proj2 (Z.eqb_neq _ _) H5).
    reflexivity.
Qed.

Lemma convertFan_toCommonFanSpeed_witness :
  convertFan (toCommonFanSpeed kElectroluxPO12FACFanMed)
  = kElectroluxPO12FACFanMed.
Proof.
  apply (convertFan_toCommonFanSpeed stdAc.fanspeed_kAuto
           kElectroluxPO12FACFanMed).
  right. right. left. reflexivity.
Defined.

(** ** The checksum byte *)

(** Byte 13 after [getRaw()] is the checksum of the frame returned. *)
Lemma getRaw_Sum (s : frame) :
  is_frame s ->
  getRaw s
  = <[13%nat := calcChecksum s kElectroluxPO12FACStateLength]> s.
Proof.
  intros [Hlen Hbytes]. unfold getRaw, checksum, wr; simpl.
  rewrite set_bits_whole.
  - rewrite Z.mod_small by apply calcChecksum_byte. reflexivity.
  - apply (Forall_lookup_total_1 is_byte s); [exact Hbytes|].
    rewrite Hlen. unfold kElectroluxPO12FACStateLength. lia.
Qed.

Lemma calcChecksum_insert_13 (v : Z) (s : frame) :
  calcChecksum (<[13%nat := v]> s) kElectroluxPO12FACStateLength
  = calcChecksum s kElectroluxPO12FACStateLength.
Proof.
  unfold calcChecksum, sumBytes; simpl.
  rewrite take_insert_ge by lia. reflexivity.
Qed.

(** X9. [getRaw()] changes byte 13 at most: bytes 0 to 12, and with them every
    field that a getter reads, are kept, and a second call returns the
    frame of the first. *)
Theorem getRaw_keeps_fields (s : frame) :
  is_frame s ->
  (forall i : nat, i <> 13%nat -> getRaw s !!! i = s !!! i)
  /\ getRaw (getRaw s) = getRaw s
  /\ getPower (getRaw s) = getPower s
  /\ getMode (getRaw s) = getMode s
  /\ getTemp (getRaw s) = getTemp s
  /\ getFan (getRaw s) = getFan s
  /\ getOffSleepTimer (getRaw s) = getOffSleepTimer s
  /\ toCommon (getRaw s) = toCommon s.
Proof.
  intros Hs.
  assert (Hrd : forall f : bitfield, bf_byte f <> 13%nat ->
                  rd f (getRaw s) = rd f s).
  { intros f Hf. unfold rd. rewrite (getRaw_Sum s Hs).
    rewrite list_lookup_total_insert_ne by congruence. reflexivity. }
  split.
  { intros i Hi. rewrite (getRaw_Sum s Hs).
    apply list_lookup_total_insert_ne. congruence. }
  split.
  { rewrite (getRaw_Sum (getRaw s)) by (apply is_frame_getRaw, Hs).
    rewrite (getRaw_Sum s Hs), calcChecksum_insert_13.
    apply list_insert_insert_eq. }
  unfold getPower, getMode, getFan, getOffSleepTimer, toCommon, getEcono,
    getTemp.
  rewrite !Hrd by (simpl; lia). repeat split.
Qed.

Lemma getRaw_keeps_fields_witness :
  is_frame kElectroluxPO12FACDefaultState
  /\ getRaw (getRaw kElectroluxPO12FACDefaultState)
     = getRaw kElectroluxPO12FACDefaultState.
Proof.
  split; [frame_by_computation|].
  apply (getRaw_keeps_fields kElectroluxPO12FACDefaultState).
  frame_by_computation.
Defined.

(** The sum of a list after one element is replaced. *)
Lemma byte_sum_insert (l : list Z) (i : nat) (v : Z) :
  (i < length l)%nat ->
  byte_sum (<[i := v]> l) = byte_sum l - l !!! i + v.
Proof.
  revert i. induction l as [|b l IH]; intros i Hi; simpl in Hi; [lia|].
  destruct i as [|i]; simpl.
  - lia.
  - change (byte_sum (<[i := v]> l)) with (foldr Z.add 0 (<[i := v]> l)) in IH.
    fold (byte_sum (<[i := v]> l)). rewrite IH by lia.
    change ((b :: l) !!! S i) with (l !!! i). fold (byte_sum l). lia.
Qed.

(** A change of a single byte of a valid frame makes it invalid. *)
Lemma single_byte_change_invalid (buf : list Z) (i : nat) (v : Z) :
  is_frame buf -> validChecksum buf 14 = true ->
  (i < 14)%nat -> is_byte v -> v <> buf !!! i ->
  validChecksum (<[i := v]> buf) 14 = false.
Proof.
  intros [Hlen Hbytes] Hvalid Hi Hv Hne.
  unfold kElectroluxPO12FACStateLength in Hlen.
  unfold validChecksum in *. simpl in *.
  apply Z.eqb_eq in Hvalid. apply Z.eqb_neq.
  rewrite (calcChecksum_sum buf 14) in Hvalid.
  rewrite (calcChecksum_sum (<[i := v]> buf) 14). simpl in *.
  assert (Hold : is_byte (buf !!! i))
    by (apply (Forall_lookup_total_1 is_byte buf); [exact Hbytes | lia]).
  destruct (decide (i = 13%nat)) as [->|Hi13].
  - rewrite take_insert_ge by lia.
    rewrite list_lookup_total_insert_eq by lia. congruence.
  - rewrite list_lookup_total_insert_ne by exact Hi13.
    rewrite take_insert_lt by lia.
    rewrite byte_sum_insert by (rewrite length_take; lia).
    rewrite lookup_total_take_lt by lia.
    rewrite Hvalid. unfold is_byte in *.
    intros Heq.
    set (S := byte_sum (take 13 buf)) in *.
    set (old := buf !!! i) in *.
    Z.div_mod_to_equations. lia.
Qed.

(** X10. [validChecksum] notices every change of a single byte of a valid
    frame, whether among bytes 0 to 12 or in the checksum byte itself.  The
    setters store into fields of bytes 5 to 9 and leave byte 13 alone: a
    store that changes a valid frame leaves it invalid, until [getRaw()]
    computes the checksum again. *)
Theorem validChecksum_detects_byte_change (buf : list Z) :
  is_frame buf ->
  validChecksum buf 14 = true ->
  (forall (i : nat) (v : Z),
     (i < 14)%nat -> is_byte v -> v <> buf !!! i ->
     validChecksum (<[i := v]> buf) 14 = false)
  /\ (forall (f : bitfield) (v : Z),
        bitfield_ok f -> bf_byte f <> 13%nat -> wr f v buf <> buf ->
        wr f v buf !!! 13%nat = buf !!! 13%nat
        /\ validChecksum (wr f v buf) 14 = false).
Proof.
  intros Hbuf Hvalid. split.
  - intros i v. apply single_byte_change_invalid; assumption.
  - intros f v Hf H13 Hchg. pose proof Hbuf as [Hlen Hbytes].
    pose proof Hf as (Hb & Hoff & Hw & Hfit).
    split; [apply wr_lookup_ne; congruence|].
    unfold wr in *.
    assert (Hold : is_byte (buf !!! bf_byte f))
      by (apply (Forall_lookup_total_1 is_byte buf);
          [exact Hbytes | rewrite Hlen; exact Hb]).
    apply single_byte_change_invalid; try assumption.
    + apply set_bits_byte; assumption.
    + intros Heq. apply Hchg. rewrite Heq. apply list_insert_id.
      apply list_lookup_lookup_total_lt. rewrite Hlen. exact Hb.
Qed.

Lemma validChecksum_detects_byte_change_witness :
  is_frame kElectroluxPO12FACDefaultState
  /\ validChecksum kElectroluxPO12FACDefaultState 14 = true
  /\ validChecksum (setPower false kElectroluxPO12FACDefaultState) 14 = false.
Proof.
  split; [frame_by_computation|]. split; [reflexivity|].
  apply (validChecksum_detects_byte_change kElectroluxPO12FACDefaultState);
    [ frame_by_computation | reflexivity
    | unfold bitfield_ok, kElectroluxPO12FACStateLength; simpl; lia
    | simpl; lia | vm_compute; discriminate ].
Defined.

(** ** Exact binary32 arithmetic *)

Lemma digits2_pos_size (p : positive) : digits2_pos p = Pos.size p.
Proof. induction p as [p IH|p IH|]; simpl; rewrite ?IH; reflexivity. Qed.

Lemma digits2_pos_log2 (p : positive) :
  Zpos (digits2_pos p) = Z.log2 (Zpos p) + 1.
Proof.
  rewrite digits2_pos_size.
  destruct p as [p|p|]; simpl; rewrite ?Pos2Z.inj_succ; lia.
Qed.

(** The number of digits of [a * 2 ^ k]. *)
Lemma digits2_pos_shift (a p : positive) (k : Z) :
  0 <= k -> Zpos p = Zpos a * 2 ^ k ->
  Zpos (digits2_pos p) = Zpos (digits2_pos a) + k.
Proof.
  intros Hk Hp. rewrite !digits2_pos_log2, Hp, Z.log2_mul_pow2 by lia. lia.
Qed.

Lemma Zpos_iter_xO (m d : positive) :
  Zpos (Pos.iter xO m d) = Zpos m * 2 ^ Zpos d.
Proof.
  rewrite (Pos.iter_swap_gen _ _ Zpos xO (Z.mul 2)) by reflexivity.
  change (Pos.iter (Z.mul 2) (Zpos m) d) with (Z.shiftl (Zpos m) (Zpos d)).
  apply Z.shiftl_mul_pow2. lia.
Qed.

(** Shifting right the zeros that a left shift brought in loses nothing. *)
Lemma iter_shr_1_exact (j : positive) :
  forall M : positive,
    SpecFloat.iter_pos shr_1 j
      {| shr_m := Zpos (Pos.iter xO M j); shr_r := false; shr_s := false |}
    = {| shr_m := Zpos M; shr_r := false; shr_s := false |}.
Proof.
  induction j as [j IH|j IH|]; intros M; simpl.
  - rewrite !IH. reflexivity.
  - rewrite !IH. reflexivity.
  - reflexivity.
Qed.

Lemma shl_align_spec (m : positive) (e e' : Z) :
  e' <= e ->
  Zpos (fst (shl_align m e e')) = Zpos m * 2 ^ (e - e')
  /\ snd (shl_align m e e') = e'.
Proof.
  intros Hle. unfold shl_align.
  destruct (e' - e) as [|d|d] eqn:Hd; simpl; try lia.
  - replace (e - e') with 0 by lia. split; lia.
  - rewrite Zpos_iter_xO. replace (e - e') with (Zpos d) by lia. split; lia.
Qed.

Section Exact.

Let prec := 24.
Let emax := 128.

(** A mantissa of 24 digits followed by [j] zeros is rounded to itself. *)
Lemma shr_fexp_exact (M p : positive) (j E e0 : Z) :
  Zpos (digits2_pos M) = 24 -> -149 <= E -> 0 <= j ->
  Zpos p = Zpos M * 2 ^ j -> e0 = E - j ->
  shr_fexp prec emax (Zpos p) e0 loc_Exact
  = ({| shr_m := Zpos M; shr_r := false; shr_s := false |}, E).
Proof.
  intros HM HE Hj Hp ->. unfold shr_fexp, fexp, emin, prec, emax; simpl Zdigits2.
  rewrite (digits2_pos_shift M p j Hj Hp), HM.
  replace (Z.max (24 + j + (E - j) - 24) (3 - 128 - 24) - (E - j)) with j by lia.
  destruct j as [|jp|jp]; simpl; try lia.
  - rewrite Z.mul_1_r in Hp. injection Hp as ->. f_equal. lia.
  - rewrite <- Zpos_iter_xO in Hp. injection Hp as ->.
    rewrite iter_shr_1_exact. f_equal. lia.
Qed.

Lemma binary_round_aux_exact (sx : bool) (M p : positive) (j E e0 : Z) :
  Zpos (digits2_pos M) = 24 -> -149 <= E <= 104 -> 0 <= j ->
  Zpos p = Zpos M * 2 ^ j -> e0 = E - j ->
  binary_round_aux prec emax sx (Zpos p) e0 loc_Exact = S754_finite sx M E.
Proof.
  intros HM HE Hj Hp He0. unfold binary_round_aux.
  rewrite (shr_fexp_exact M p j E e0) by (assumption || lia).
  simpl round_nearest_even.
  rewrite (shr_fexp_exact M M 0 E E) by (assumption || lia).
  simpl. unfold emax, prec.
  destruct (Z.leb_spec E (128 - 24)); [reflexivity | lia].
Qed.

(** [binary_normalize] represents exactly an integer of at most 24
    significant digits, whatever the number of zeros that follow them. *)
Lemma binary_normalize_exact (D : positive) (k e e0 z : Z) :
  Zpos (digits2_pos D) <= 24 -> 0 <= k ->
  -149 <= Zpos (digits2_pos D) + e - 24 <= 104 ->
  z = Zpos D * 2 ^ k -> e0 = e - k ->
  binary_normalize prec emax z e0 false
  = S754_finite false (Z.to_pos (Zpos D * 2 ^ (24 - Zpos (digits2_pos D))))
      (Zpos (digits2_pos D) + e - 24).
Proof.
  set (n := Zpos (digits2_pos D)). intros Hn Hk He Hz ->.
  assert (Hpow : 0 < 2 ^ k) by (apply Z.pow_pos_nonneg; lia).
  assert (Hpow' : 0 < 2 ^ (24 - n)) by (apply Z.pow_pos_nonneg; lia).
  destruct z as [|p|p]; try lia.
  set (M := Z.to_pos (Zpos D * 2 ^ (24 - n))).
  assert (HM : Zpos M = Zpos D * 2 ^ (24 - n))
    by (unfold M; rewrite Z2Pos.id; lia).
  assert (HdM : Zpos (digits2_pos M) = 24).
  { rewrite (digits2_pos_shift D M (24 - n)) by (lia || exact HM).
    fold n. lia. }
  unfold binary_normalize, binary_round.
  rewrite (digits2_pos_shift D p k Hk Hz). fold n.
  unfold fexp, emin, prec, emax.
  replace (Z.max (n + k + (e - k) - 24) (3 - 128 - 24)) with (n + e - 24) by lia.
  unfold shl_align.
  destruct (n + e - 24 - (e - k)) as [|d|d] eqn:Hd.
  - apply (binary_round_aux_exact false M p 0); try lia; try exact HdM.
    rewrite HM, Hz. replace k with (24 - n) by lia. lia.
  - apply (binary_round_aux_exact false M p (Zpos d)); try lia; try exact HdM.
    rewrite HM, Hz. replace k with (24 - n + Zpos d) by lia.
    rewrite Z.pow_add_r by lia. lia.
  - assert (Heq : Pos.iter xO p d = M).
    { apply Pos2Z.inj. rewrite Zpos_iter_xO, HM, Hz.
      replace (24 - n) with (k + Zpos d) by lia.
      rewrite Z.pow_add_r by lia. lia. }
    rewrite Heq.
    apply (binary_round_aux_exact false M M 0); try lia; exact HdM.
Qed.

End Exact.

(** The subtraction and the addition of [setTemp], on positive floats. *)
Lemma sub_same_exponent (a b : positive) (e : Z) :
  Float32.sub (S754_finite false a e) (S754_finite false b e)
  = binary_normalize 24 128 (Zpos a - Zpos b) e false.
Proof.
  unfold Float32.sub, SFsub, shl_align, cond_Zopp.
  rewrite Z.min_id, Z.sub_diag. reflexivity.
Qed.

Lemma add_positive (a b : positive) (ea eb : Z) :
  Float32.add (S754_finite false a ea) (S754_finite false b eb)
  = binary_normalize 24 128
      (Zpos (fst (shl_align a ea (Z.min ea eb)))
       + Zpos (fst (shl_align b eb (Z.min ea eb))))
      (Z.min ea eb) false.
Proof. reflexivity. Qed.

(** The code that [setTemp] computes for a float of the range 18 to 28:
    such a float has exponent -19. *)
Lemma temp_code_in_range (m : positive) :
  9437184 <= Zpos m <= 14680064 ->
  Float32.to_uint8
    (Float32.add
       (Float32.sub kElectroluxPO12FACTempMax (S754_finite false m (-19)))
       (Float32.of_int 3))
  = Some (3 + (14680064 - Zpos m) / 524288).
Proof.
  intros Hm.
  change kElectroluxPO12FACTempMax with (S754_finite false 14680064 (-19)).
  change (Float32.of_int 3) with (S754_finite false 12582912 (-22)).
  rewrite sub_same_exponent.
  destruct (Z.eq_dec (Zpos m) 14680064) as [Heq|Hne].
  { rewrite Heq. reflexivity. }
  destruct (14680064 - Zpos m) as [|D|D] eqn:Hd; try lia.
  set (n := Zpos (digits2_pos D)).
  assert (Hn : 1 <= n <= 23).
  { unfold n. rewrite digits2_pos_log2.
    pose proof (Z.log2_nonneg (Zpos D)).
    assert (Z.log2 (Zpos D) < 23); [|lia].
    apply Z.log2_lt_pow2; lia. }
  rewrite (binary_normalize_exact D 0 (-19) (-19) (Zpos D));
    fold n; try lia.
  set (M1 := Z.to_pos (Zpos D * 2 ^ (24 - n))).
  assert (HM1 : Zpos M1 = Zpos D * 2 ^ (24 - n)).
  { unfold M1. rewrite Z2Pos.id; [reflexivity|].
    apply Z.mul_pos_pos; [lia|]. apply Z.pow_pos_nonneg; lia. }
  rewrite add_positive.
  set (ez := Z.min (n + -19 - 24) (-22)).
  destruct (shl_align_spec M1 (n + -19 - 24) ez) as [Ha _]; [unfold ez; lia|].
  destruct (shl_align_spec 12582912 (-22) ez) as [Hb _]; [unfold ez; lia|].
  rewrite Ha, Hb, HM1.
  set (D' := Z.to_pos (Zpos D + 1572864)).
  assert (HD' : Zpos D' = Zpos D + 1572864) by (unfold D'; rewrite Z2Pos.id; lia).
  set (n' := Zpos (digits2_pos D')).
  assert (Hn' : 21 <= n' <= 23).
  { unfold n'. rewrite digits2_pos_log2, HD'.
    assert (20 <= Z.log2 (Zpos D + 1572864) < 23); [|lia]. split.
    - apply Z.log2_le_pow2; lia.
    - apply Z.log2_lt_pow2; lia. }
  rewrite (binary_normalize_exact D' (-19 - ez) (-19) ez);
    fold n'; try (unfold ez; lia).
  - unfold Float32.to_uint8, Float32.trunc.
    destruct (n' + -19 - 24) as [|q|q] eqn:Hq; try lia.
    rewrite Z2Pos.id
      by (apply Z.mul_pos_pos; [lia|]; apply Z.pow_pos_nonneg; lia).
    rewrite Z.shiftr_div_pow2 by lia.
    replace (Zpos q) with (24 - n' + 19) by lia.
    rewrite Z.pow_add_r by lia.
    rewrite (Z.mul_comm (Zpos D')).
    rewrite Z.div_mul_cancel_l by (try apply Z.pow_nonzero; lia).
    rewrite HD'. change (2 ^ 19) with 524288.
    replace (Zpos D + 1572864) with (Zpos D + 3 * 524288) by lia.
    rewrite Z.div_add by lia.
    assert (0 <= Zpos D / 524288 <= 10).
    { split; [apply Z.div_pos; lia|].
      apply Z.div_le_upper_bound; lia. }
    replace (Zpos D / 524288 + 3) with (3 + Zpos D / 524288) by lia.
    destruct (Z.leb_spec 0 (3 + Zpos D / 524288)); [|lia].
    destruct (Z.ltb_spec (3 + Zpos D / 524288) 256); [|lia].
    reflexivity.
  - rewrite HD'. set (k := -19 - ez). assert (Hk : 3 <= k) by (unfold k, ez; lia).
    rewrite <- Z.mul_assoc, <- Z.pow_add_r by lia.
    replace (24 - n + (n + -19 - 24 - ez)) with k by (unfold k; lia).
    replace (-22 - ez) with (k - 3) by (unfold k; lia).
    change 12582912 with (1572864 * 2 ^ 3).
    rewrite <- (Z.mul_assoc 1572864), <- Z.pow_add_r by lia.
    replace (3 + (k - 3)) with k by lia. lia.
Qed.

(** Two positive floats of the same exponent compare as their mantissas. *)
Lemma ltb_same_exponent (a b : positive) (e : Z) :
  Float32.ltb (S754_finite false a e) (S754_finite false b e)
  = (Zpos a <? Zpos b).
Proof.
  unfold Float32.ltb, SFltb, SFcompare. rewrite Z.compare_refl.
  change (Pos.compare_cont Eq a b) with (Pos.compare a b).
  destruct (Pos.compare_spec a b), (Z.ltb_spec (Zpos a) (Zpos b));
    try reflexivity; lia.
Qed.

(** The clamp of [setTemp]: what [std::min(std::max(x, 18), 28)] returns
    for a float other than a NaN. *)
Lemma clamp_cases (x : float) :
  x <> S754_nan ->
  Float32.ltb x kElectroluxPO12FACTempMin = true
  /\ Float32.ltb kElectroluxPO12FACTempMax x = false
  /\ Float32.min (Float32.max x kElectroluxPO12FACTempMin)
       kElectroluxPO12FACTempMax = kElectroluxPO12FACTempMin
  \/ Float32.ltb kElectroluxPO12FACTempMax x = true
     /\ Float32.ltb x kElectroluxPO12FACTempMin = false
     /\ Float32.min (Float32.max x kElectroluxPO12FACTempMin)
          kElectroluxPO12FACTempMax = kElectroluxPO12FACTempMax
  \/ Float32.ltb x kElectroluxPO12FACTempMin = false
     /\ Float32.ltb kElectroluxPO12FACTempMax x = false
     /\ Float32.min (Float32.max x kElectroluxPO12FACTempMin)
          kElectroluxPO12FACTempMax = x
     /\ exists m : positive,
          x = S754_finite false m (-19) /\ 9437184 <= Zpos m <= 14680064.
Proof.
  intros Hnan.
  change kElectroluxPO12FACTempMax with (S754_finite false 14680064 (-19)).
  change kElectroluxPO12FACTempMin with (S754_finite false 9437184 (-19)).
  destruct x as [sx|sx| |sx m e]; try congruence.
  - left. repeat split.
  - destruct sx; [left | right; left]; repeat split.
  - destruct sx; [left; repeat split|].
    unfold Float32.min, Float32.max.
    destruct (Z.compare_spec e (-19)) as [->|Hlt|Hgt].
    + rewrite !ltb_same_exponent.
      destruct (Z.ltb_spec (Zpos m) 9437184) as [Hm|Hm].
      * left. rewrite !ltb_same_exponent.
        destruct (Z.ltb_spec 14680064 (Zpos m)); [lia|]. repeat split.
      * rewrite !ltb_same_exponent.
        destruct (Z.ltb_spec 14680064 (Zpos m)) as [Hm'|Hm'].
        -- right; left. repeat split.
        -- right; right. repeat split. exists m. split; [reflexivity | lia].
    + assert (Hc : (e ?= -19) = Lt) by (apply Z.compare_lt_iff; lia).
      assert (Hc' : (-19 ?= e) = Gt) by (apply Z.compare_gt_iff; lia).
      left. unfold Float32.ltb, SFltb, SFcompare. rewrite Hc, Hc'.
      repeat split.
    + assert (Hc : (e ?= -19) = Gt) by (apply Z.compare_gt_iff; lia).
      assert (Hc' : (-19 ?= e) = Lt) by (apply Z.compare_lt_iff; lia).
      right; left. unfold Float32.ltb, SFltb, SFcompare. rewrite Hc, Hc'.
      repeat split.
Qed.

(** [setTemp] stores a code from 3 to 13 for every float but a NaN. *)
Lemma setTemp_stores (x : float) (s : frame) :
  x <> S754_nan ->
  exists t : Z,
    setTemp x s = Some (wr Temp t s)
    /\ 3 <= t <= 13
    /\ (Float32.ltb x kElectroluxPO12FACTempMin = true -> t = 13)
    /\ (Float32.ltb kElectroluxPO12FACTempMax x = true -> t = 3)
    /\ (forall m : positive, x = S754_finite false m (-19) ->
        9437184 <= Zpos m <= 14680064 ->
        t = 3 + (14680064 - Zpos m) / 524288).
Proof.
  intros Hnan. unfold setTemp.
  destruct (clamp_cases x Hnan)
    as [(Hlo & Hhi & ->)|[(Hhi & Hlo & ->)|(Hlo & Hhi & -> & m & -> & Hm)]].
  - exists 13. split; [reflexivity|]. split; [lia|]. split; [reflexivity|].
    split; [congruence|].
    intros m -> Hm. exfalso. revert Hlo.
    change kElectroluxPO12FACTempMin with (S754_finite false 9437184 (-19)).
    rewrite ltb_same_exponent. destruct (Z.ltb_spec (Zpos m) 9437184);
      [lia | discriminate].
  - exists 3. split; [reflexivity|]. split; [lia|]. split; [congruence|].
    split; [reflexivity|].
    intros m -> Hm. exfalso. revert Hhi.
    change kElectroluxPO12FACTempMax with (S754_finite false 14680064 (-19)).
    rewrite ltb_same_exponent. destruct (Z.ltb_spec 14680064 (Zpos m));
      [lia | discriminate].
  - rewrite (temp_code_in_range m Hm).
    eexists. split; [reflexivity|].
    assert (0 <= (14680064 - Zpos m) / 524288 <= 10).
    { split; [apply Z.div_pos; lia|]. apply Z.div_le_upper_bound; lia. }
    split; [lia|]. split; [congruence|]. split; [congruence|].
    intros m' [= <-] _. reflexivity.
Qed.


(** ** The temperature setter on every float *)

(** X11. [setTemp] is defined for every float but a NaN, for which the
    conversion to [uint8_t] is undefined.  It stores a code from 3 to 13 in
    the Temp field: 13, the code of 18 degrees, for every value below 18
    (minus infinity included) and 3, the code of 28 degrees, for every
    value above 28 (plus infinity included).  The upper four bits of byte 7
    and the other bytes of the frame are kept. *)
Theorem setTemp_every_float (x : float) (s : frame) :
  is_frame s ->
  (x = S754_nan -> setTemp x s = None)
  /\ (x <> S754_nan ->
      exists s' : frame,
        setTemp x s = Some s'
        /\ 3 <= rd Temp s' <= 13
        /\ (Float32.ltb x kElectroluxPO12FACTempMin = true -> rd Temp s' = 13)
        /\ (Float32.ltb kElectroluxPO12FACTempMax x = true -> rd Temp s' = 3)
        /\ (forall i : nat, i <> 7%nat -> s' !!! i = s !!! i)
        /\ (forall n : Z, 4 <= n ->
              Z.testbit (s' !!! 7%nat) n = Z.testbit (s !!! 7%nat) n)).
Proof.
  intros Hs. pose proof Hs as [Hlen _]. split; [intros ->; reflexivity|].
  intros Hnan.
  destruct (setTemp_stores x s Hnan) as (t & Hset & Ht & Hlo & Hhi & _).
  exists (wr Temp t s). split; [exact Hset|].
  rewrite (rd_Temp_wr t s Hs) by lia.
  split; [exact Ht|]. split; [exact Hlo|]. split; [exact Hhi|]. split.
  - intros i Hi. apply wr_lookup_ne. exact Hi.
  - intros n Hn. apply (wr_keeps_bits Temp);
      [apply bitfields_ok | exact Hlen | lia | simpl; lia].
Qed.

Lemma setTemp_every_float_witness :
  is_frame kElectroluxPO12FACDefaultState
  /\ S754_infinity true <> S754_nan
  /\ exists s' : frame,
       setTemp (S754_infinity true) kElectroluxPO12FACDefaultState = Some s'
       /\ rd Temp s' = 13.
Proof.
  split; [frame_by_computation|]. split; [discriminate|].
  destruct (setTemp_every_float (S754_infinity true)
              kElectroluxPO12FACDefaultState) as [_ H];
    [frame_by_computation|].
  destruct H as (s' & Hset & _ & Hlo & _); [discriminate|].
  exists s'. split; [exact Hset | apply Hlo; reflexivity].
Defined.

(** The whole degrees from 17 to 28 as floats. *)
Lemma of_int_whole (c : Z) :
  17 <= c <= 28 ->
  Float32.of_int c = S754_finite false (Z.to_pos (c * 524288)) (-19).
Proof.
  intros Hc.
  apply (tabulated Float32.of_int
           (fun c => S754_finite false (Z.to_pos (c * 524288)) (-19)) 17 12);
    [vm_compute; reflexivity | lia].
Qed.

(** X12. [setTemp] rounds up: a value from 18 to 28 is stored as the least whole
    number of degrees [c] that is not below it.  So 24.5 is stored as 25:
    the half degrees of the interface are not kept. *)
Theorem setTemp_rounds_up (x : float) (s : frame) :
  x <> S754_nan ->
  Float32.ltb x kElectroluxPO12FACTempMin = false ->
  Float32.ltb kElectroluxPO12FACTempMax x = false ->
  exists c : Z,
    18 <= c <= 28
    /\ Float32.ltb (Float32.of_int c) x = false
    /\ Float32.ltb (Float32.of_int (c - 1)) x = true
    /\ setTemp x s = setTemp (Float32.of_int c) s
    /\ setTemp x s = Some (wr Temp (28 - c + 3) s).
Proof.
  intros Hnan Hlo Hhi.
  destruct (clamp_cases x Hnan)
    as [(Hlo' & _)|[(Hhi' & _)|(_ & _ & _ & m & -> & Hm)]]; try congruence.
  set (d := (14680064 - Zpos m) / 524288).
  assert (Hd : 0 <= d <= 10).
  { unfold d. split; [apply Z.div_pos; lia|].
    apply Z.div_le_upper_bound; lia. }
  assert (Hdm : 524288 * d <= 14680064 - Zpos m < 524288 * d + 524288).
  { unfold d. pose proof (Z.mul_div_le (14680064 - Zpos m) 524288).
    pose proof (Z.mul_succ_div_gt (14680064 - Zpos m) 524288). lia. }
  exists (28 - d). split; [lia|].
  rewrite !of_int_whole by lia. rewrite !ltb_same_exponent.
  rewrite !Z2Pos.id by lia.
  split; [apply Z.ltb_ge; lia|]. split; [apply Z.ltb_lt; lia|].
  destruct (setTemp_stores (S754_finite false m (-19)) s Hnan)
    as (t & -> & _ & _ & _ & Ht).
  destruct (setTemp_stores
              (S754_finite false (Z.to_pos ((28 - d) * 524288)) (-19)) s)
    as (t' & -> & _ & _ & _ & Ht'); [discriminate|].
  rewrite (Ht m) by (reflexivity || exact Hm).
  rewrite (Ht' _ eq_refl) by (rewrite Z2Pos.id; lia).
  rewrite Z2Pos.id by lia.
  replace (14680064 - (28 - d) * 524288) with (d * 524288) by lia.
  rewrite Z.div_mul by lia. fold d.
  replace (28 - (28 - d) + 3) with (3 + d) by lia. split; reflexivity.
Qed.

Lemma setTemp_rounds_up_witness :
  S754_finite false 12845056 (-19) <> S754_nan
  /\ Float32.ltb (S754_finite false 12845056 (-19))
       kElectroluxPO12FACTempMin = false
  /\ Float32.ltb kElectroluxPO12FACTempMax
       (S754_finite false 12845056 (-19)) = false
  /\ exists c : Z,
       18 <= c <= 28
       /\ setTemp (S754_finite false 12845056 (-19))
            kElectroluxPO12FACDefaultState
          = setTemp (Float32.of_int c) kElectroluxPO12FACDefaultState.
Proof.
  split; [discriminate|]. split; [reflexivity|]. split; [reflexivity|].
  destruct (setTemp_rounds_up (S754_finite false 12845056 (-19))
              kElectroluxPO12FACDefaultState)
    as (c & Hc & _ & _ & H & _); [discriminate | reflexivity | reflexivity |].
  exists c. split; [exact Hc | exact H].
Defined.

(** 24.5 degrees are stored as 25 degrees. *)
Example setTemp_24_5 :
  setTemp (S754_finite false 12845056 (-19)) kElectroluxPO12FACDefaultState
  = setTemp (Float32.of_int 25) kElectroluxPO12FACDefaultState
  /\ Float32.add (S754_finite false 12845056 (-19))
       (S754_finite false 12845056 (-19)) = Float32.of_int 49.
Proof. split; vm_compute; reflexivity. Qed.

(** X13. [getTemp()] returns a whole number of degrees from 25 to 40, 25 plus
    the value of the Temp field, for every frame: it never returns one of
    the temperatures from 18 to 24 that [setTemp] accepts. *)
Theorem getTemp_range (s : frame) :
  0 <= rd Temp s <= 15
  /\ getTemp s = Float32.of_int (25 + rd Temp s)
  /\ Float32.ltb (getTemp s) (Float32.of_int 25) = false
  /\ Float32.ltb (Float32.of_int 40) (getTemp s) = false.
Proof.
  assert (Ht : 0 <= rd Temp s < 16) by (apply (rd_range Temp s); simpl; lia).
  split; [lia|].
  rewrite getTemp_decode.
  replace (28 + rd Temp s - 3) with (25 + rd Temp s) by lia.
  split; [reflexivity|]. split.
  - apply (tabulated
             (fun t => Float32.ltb (Float32.of_int (25 + t)) (Float32.of_int 25))
             (fun _ => false) 0 16); [vm_compute; reflexivity | lia].
  - apply (tabulated
             (fun t => Float32.ltb (Float32.of_int 40) (Float32.of_int (25 + t)))
             (fun _ => false) 0 16); [vm_compute; reflexivity | lia].
Qed.


(** ** Frames with valid fields *)

(** A store into a field that does not overlap [g] keeps [g]. *)
Lemma rd_wr_apart (f g : bitfield) (v : Z) (s : frame) :
  bitfield_ok f -> bitfield_ok g ->
  length s = kElectroluxPO12FACStateLength ->
  bf_byte g <> bf_byte f
  \/ bf_off g + bf_width g <= bf_off f
  \/ bf_off f + bf_width f <= bf_off g ->
  rd g (wr f v s) = rd g s.
Proof.
  intros Hf Hg Hlen [Hne|Hdisj]; [apply rd_wr_other, Hne|].
  destruct (decide (bf_byte g = bf_byte f)) as [Heq|Hne];
    [apply rd_wr_beside; assumption | apply rd_wr_other, Hne].
Qed.

(** A store into a field other than Mode, Fan and Temp keeps the validity
    of these three. *)
Lemma fields_valid_wr (f : bitfield) (v : Z) (s : frame) :
  f = Power \/ f = Turbo \/ f = Follow \/ f = Swing \/ f = OffSleepTimer
  \/ f = Sum ->
  length s = kElectroluxPO12FACStateLength ->
  fields_valid s -> fields_valid (wr f v s).
Proof.
  intros Hf Hlen Hv. unfold fields_valid.
  assert (Hrd : forall g, g = Mode \/ g = Fan \/ g = Temp ->
                  rd g (wr f v s) = rd g s).
  { intros g Hg. apply rd_wr_apart; try exact Hlen.
    - destruct Hf as [->|[->|[->|[->|[->| ->]]]]]; apply bitfields_ok.
    - destruct Hg as [->|[->| ->]]; apply bitfields_ok.
    - destruct Hf as [->|[->|[->|[->|[->| ->]]]]];
        destruct Hg as [->|[->| ->]]; simpl; lia. }
  rewrite !Hrd by auto. exact Hv.
Qed.

Lemma fields_valid_default : fields_valid kElectroluxPO12FACDefaultState.
Proof. unfold fields_valid. vm_compute. intuition congruence. Qed.

(** Each call keeps a frame with valid fields a frame with valid fields. *)
Lemma run_call_valid (c : call) (s s' : frame) :
  is_frame s -> fields_valid s -> run_call c s = Some s' ->
  is_frame s' /\ fields_valid s'.
Proof.
  intros Hs Hv. pose proof Hs as [Hlen _].
  destruct c; simpl.
  - intros [= <-]. rewrite (stateReset_is_default s Hs).
    split; [apply default_state_frame | apply fields_valid_default].
  - intros [= <-]. split; [apply is_frame_getRaw, Hs|].
    unfold getRaw, checksum; simpl. apply fields_valid_wr; auto 7.
  - intros [= <-]. split; [apply is_frame_setPower, Hs|].
    apply fields_valid_wr; auto.
  - intros [= <-]. split; [apply is_frame_setPower, Hs|].
    apply fields_valid_wr; auto.
  - intros [= <-]. split; [apply is_frame_setPower, Hs|].
    apply fields_valid_wr; auto.
  - intros [= <-]. split; [apply is_frame_setMode, Hs|].
    destruct Hv as (Hm & Hf & Ht).
    destruct (setMode_stores mode s) as (v & t & -> & Hval & Hcase).
    assert (Hlt : length t = kElectroluxPO12FACStateLength)
      by (destruct Hcase as [[-> _]|[-> _]]; rewrite ?length_wr; exact Hlen).
    unfold fields_valid.
    rewrite (rd_wr_fits Mode v t), !(rd_wr_other Mode) by
      (apply bitfields_ok || exact Hlt || (simpl; lia)
       || (unfold kElectroluxPO12FACHeat, kElectroluxPO12FACDry,
             kElectroluxPO12FACCool, kElectroluxPO12FACFan,
             kElectroluxPO12FACAuto in Hval; simpl; lia)).
    split; [exact Hval|].
    destruct Hcase as [[-> _]|[-> _]]; [split; assumption|].
    rewrite (rd_wr_fits Fan), (rd_wr_other Fan) by
      (apply bitfields_ok || exact Hlen || (simpl; lia)
       || (unfold kElectroluxPO12FACFanHigh; simpl; lia)).
    split; [auto 6 | exact Ht].
  - intros Hset. split; [apply (is_frame_setTemp celsius s s' Hs Hset)|].
    destruct Hv as (Hm & Hf & _).
    destruct celsius as [sx|sx| |sx m e] eqn:Hx;
      try (discriminate Hset);
      (destruct (setTemp_stores celsius s) as (t & Hst & Ht & _);
       [rewrite Hx; discriminate|]);
      rewrite Hx in Hst; rewrite Hst in Hset; injection Hset as <-;
      unfold fields_valid;
      rewrite (rd_Temp_wr t s Hs), !(rd_wr_other Temp) by (lia || (simpl; lia));
      repeat split; assumption || lia.
  - intros [= <-]. split; [apply is_frame_setFan, Hs|].
    destruct Hv as (Hm & _ & Ht).
    destruct (setFan_stores speed s) as (v & -> & Hval & _).
    unfold fields_valid.
    rewrite (rd_wr_fits Fan v s), !(rd_wr_other Fan) by
      (apply bitfields_ok || exact Hlen || (simpl; lia)
       || (unfold kElectroluxPO12FACFanAuto, kElectroluxPO12FACFanLow,
             kElectroluxPO12FACFanMed, kElectroluxPO12FACFanHigh in Hval;
           simpl; lia)).
    split; [exact Hm|]. split; [|exact Ht].
    destruct Hval as [->|[->|[->| ->]]]; auto 6.
  - intros [= <-]. split; [apply is_frame_setEcono, Hs|].
    destruct b; simpl; [|exact Hv].
    destruct Hv as (Hm & _ & Ht). unfold fields_valid.
    rewrite (rd_wr_fits Fan), !(rd_wr_other Fan) by
      (apply bitfields_ok || exact Hlen || (simpl; lia)
       || (unfold kElectroluxPO12FACFanEco; simpl; lia)).
    split; [exact Hm|]. split; [auto | exact Ht].
  - intros [= <-]. split; [apply is_frame_setSwing, Hs|].
    apply fields_valid_wr; auto 6.
  - intros Hset. split; [apply (is_frame_setTurbo b s s' Hs Hset)|].
    unfold setTurbo in Hset.
    assert (Hv1 : fields_valid (wr Turbo (Z.b2z b) s))
      by (apply fields_valid_wr; auto).
    destruct b; [|injection Hset as <-; exact Hv1].
    rewrite setTemp_whole_degrees in Hset by lia. injection Hset as <-.
    destruct Hv1 as (Hm & _ & _).
    assert (Hs1 : is_frame (wr Fan kElectroluxPO12FACFanHigh
                              (wr Turbo (Z.b2z true) s))).
    { do 2 (apply is_frame_wr; [apply bitfields_ok|]). exact Hs. }
    unfold fields_valid.
    rewrite (rd_Temp_wr _ _ Hs1) by (unfold clamp_degrees; lia).
    rewrite !(rd_wr_other Temp) by (simpl; lia).
    rewrite (rd_wr_fits Fan), (rd_wr_other Fan) by
      (apply bitfields_ok || (rewrite ?length_wr; exact Hlen) || (simpl; lia)
       || (unfold kElectroluxPO12FACFanHigh; simpl; lia)).
    split; [exact Hm|]. split; [auto 6|]. unfold clamp_degrees. lia.
  - intros [= <-]. split; [apply is_frame_setFollow, Hs|].
    apply fields_valid_wr; auto.
  - intros [= <-]. split; [apply is_frame_setOffSleepTimer, Hs|].
    apply fields_valid_wr; auto 6.
Qed.

(** Every call but [setTemp] of a NaN returns. *)
Lemma run_call_defined (c : call) (s : frame) :
  c <> CallSetTemp S754_nan -> exists s' : frame, run_call c s = Some s'.
Proof.
  intros Hc. destruct c; simpl; try (eexists; reflexivity).
  - destruct (setTemp_stores celsius s) as (t & -> & _); [congruence|].
    eexists; reflexivity.
  - unfold setTurbo. destruct b; [|eexists; reflexivity].
    rewrite setTemp_whole_degrees by lia. eexists; reflexivity.
Qed.

(** X14. Starting from a frame whose Mode, Fan and Temp fields hold values of
    the protocol, as the default frame does, every sequence of calls of the
    setters, [stateReset] and [getRaw] runs to its end, unless it gives a
    NaN to [setTemp], and leaves a frame of 14 bytes whose Mode, Fan and
    Temp fields hold values of the protocol. *)
Theorem run_keeps_valid_fields (cs : list call) (s : frame) :
  is_frame s ->
  fields_valid s ->
  Forall (fun c => c <> CallSetTemp S754_nan) cs ->
  exists s' : frame, run cs s = Some s' /\ is_frame s' /\ fields_valid s'.
Proof.
  intros Hs Hv Hcs. revert s Hs Hv.
  induction Hcs as [|c cs Hc _ IH]; intros s Hs Hv; simpl.
  - exists s. auto.
  - destruct (run_call_defined c s Hc) as (s1 & Hrun). rewrite Hrun.
    destruct (run_call_valid c s s1 Hs Hv Hrun) as [Hs1 Hv1].
    apply IH; assumption.
Qed.

Lemma run_keeps_valid_fields_witness :
  is_frame kElectroluxPO12FACDefaultState
  /\ fields_valid kElectroluxPO12FACDefaultState
  /\ Forall (fun c => c <> CallSetTemp S754_nan)
       [CallSetMode 9; CallSetTurbo true; CallSetEcono true; CallGetRaw]
  /\ exists s' : frame,
       run [CallSetMode 9; CallSetTurbo true; CallSetEcono true; CallGetRaw]
         kElectroluxPO12FACDefaultState = Some s'
       /\ fields_valid s'.
Proof.
  assert (Hv : fields_valid kElectroluxPO12FACDefaultState)
    by (unfold fields_valid; vm_compute; intuition congruence).
  assert (Hcs : Forall (fun c => c <> CallSetTemp S754_nan)
                  [CallSetMode 9; CallSetTurbo true; CallSetEcono true;
                   CallGetRaw])
    by (repeat (apply Forall_cons; split; [discriminate|]); apply Forall_nil;
        exact I).
  split; [frame_by_computation|]. split; [exact Hv|]. split; [exact Hcs|].
  destruct (run_keeps_valid_fields
              [CallSetMode 9; CallSetTurbo true; CallSetEcono true; CallGetRaw]
              kElectroluxPO12FACDefaultState)
    as (s' & Hrun & _ & Hv'); [frame_by_computation | exact Hv | exact Hcs |].
  exists s'. split; [exact Hrun | exact Hv'].
Defined.

(** ** Raw frames in and out *)

Lemma setRaw_whole (buf : list Z) (s : frame) :
  is_frame s -> length buf = 14%nat -> setRaw buf 14 s = buf.
Proof.
  intros [Hlen _] Hbuf. unfold kElectroluxPO12FACStateLength in Hlen.
  unfold setRaw, kElectroluxPO12FACStateLength. simpl Nat.min.
  rewrite memcpy_take_drop by lia.
  rewrite take_ge, drop_ge by lia. apply app_nil_r.
Qed.

(** X15. A frame loaded with [setRaw] comes back from [getRaw()] with its bytes
    0 to 12 as they were, and as a whole exactly when its checksum byte was
    valid: [getRaw()] repairs the checksum of a frame received with a wrong
    one, without a trace. *)
Theorem getRaw_setRaw_round_trip (buf : list Z) (s : frame) :
  is_frame s ->
  is_frame buf ->
  (forall i : nat, i <> 13%nat -> getRaw (setRaw buf 14 s) !!! i = buf !!! i)
  /\ (getRaw (setRaw buf 14 s) = buf <-> validChecksum buf 14 = true)
  /\ getRaw (setRaw buf 14 s) !!! 13%nat = calcChecksum buf 14.
Proof.
  intros Hs Hbuf. pose proof Hbuf as [Hlen Hbytes].
  unfold kElectroluxPO12FACStateLength in Hlen.
  rewrite (setRaw_whole buf s Hs Hlen), (getRaw_Sum buf Hbuf).
  unfold kElectroluxPO12FACStateLength.
  split; [|split].
  - intros i Hi. apply list_lookup_total_insert_ne. congruence.
  - unfold validChecksum. simpl. rewrite Z.eqb_eq. split.
    + intros Heq.
      rewrite <- Heq at 1. apply list_lookup_total_insert_eq. lia.
    + intros Hvalid. apply list_insert_id.
      rewrite <- Hvalid. apply list_lookup_lookup_total_lt. lia.
  - apply list_lookup_total_insert_eq. lia.
Qed.

Lemma getRaw_setRaw_round_trip_witness :
  is_frame (repeat 0 14)
  /\ is_frame kElectroluxPO12FACDefaultState
  /\ getRaw (setRaw kElectroluxPO12FACDefaultState 14 (repeat 0 14))
     = kElectroluxPO12FACDefaultState.
Proof.
  split; [frame_by_computation|]. split; [frame_by_computation|].
  apply (getRaw_setRaw_round_trip kElectroluxPO12FACDefaultState (repeat 0 14));
    [frame_by_computation | frame_by_computation | reflexivity].
Defined.

(** ** The off timer *)

(** X16. The timer field holds the hours up to 42 exactly, six units an hour,
    so that the hours are the field divided by 6; from 43 hours on the
    product does not fit the 8 bits of the field and what is stored is
    less than [hours * 6].  The other bytes of the frame are kept. *)
Theorem setOffSleepTimer_hours (h : Z) (s : frame) :
  is_frame s ->
  0 <= h < 256 ->
  (h <= 42 ->
   getOffSleepTimer (setOffSleepTimer h s) = h * 6
   /\ getOffSleepTimer (setOffSleepTimer h s) / 6 = h)
  /\ (43 <= h -> getOffSleepTimer (setOffSleepTimer h s) < h * 6
               /\ getOffSleepTimer (setOffSleepTimer h s) / 6 < h)
  /\ (forall i : nat, i <> 9%nat -> setOffSleepTimer h s !!! i = s !!! i).
Proof.
  intros [Hlen _] Hh.
  assert (Hget : getOffSleepTimer (setOffSleepTimer h s) = (h * 6) mod 256).
  { unfold getOffSleepTimer, setOffSleepTimer.
    rewrite rd_wr by (apply bitfields_ok || exact Hlen).
    simpl bf_width. rewrite Z.land_ones by lia. reflexivity. }
  rewrite Hget. split; [|split].
  - intros Hle. rewrite Z.mod_small by lia. split; [reflexivity|].
    apply Z.div_mul. lia.
  - intros Hge.
    assert (Hmod : 0 <= (h * 6) mod 256 < 256) by (apply Z.mod_pos_bound; lia).
    split; [lia|].
    apply Z.div_lt_upper_bound; lia.
  - intros i Hi. apply wr_lookup_ne. exact Hi.
Qed.

Lemma setOffSleepTimer_hours_witness :
  is_frame kElectroluxPO12FACDefaultState
  /\ 0 <= 43 < 256
  /\ getOffSleepTimer (setOffSleepTimer 43 kElectroluxPO12FACDefaultState)
     < 43 * 6.
Proof.
  split; [frame_by_computation|]. split; [lia|].
  apply (setOffSleepTimer_hours 43 kElectroluxPO12FACDefaultState);
    [frame_by_computation | lia | lia].
Defined.

(** ** Generic values through the frame *)

(** The mode that [setMode] leaves, for every input. *)
Lemma toCommonMode_setMode (mode : Z) (s : frame) :
  is_frame s -> toCommonMode (rd Mode (setMode mode s)) = toCommonMode mode.
Proof.
  intros [Hlen _]. fold (getMode (setMode mode s)). unfold setMode.
  destruct (Z.eqb_spec mode kElectroluxPO12FACFan) as [->|H7].
  { rewrite getMode_wr_Mode; [reflexivity | | cbv; split; congruence].
    unfold setFan; simpl. rewrite length_wr. exact Hlen. }
  destruct (Z.eqb_spec mode kElectroluxPO12FACAuto) as [->|H8]; simpl.
  { rewrite getMode_wr_Mode;
      [reflexivity | exact Hlen | cbv; split; congruence]. }
  destruct (Z.eqb_spec mode kElectroluxPO12FACCool) as [->|H3]; simpl.
  { rewrite getMode_wr_Mode;
      [reflexivity | exact Hlen | cbv; split; congruence]. }
  destruct (Z.eqb_spec mode kElectroluxPO12FACHeat) as [->|H1]; simpl.
  { rewrite getMode_wr_Mode;
      [reflexivity | exact Hlen | cbv; split; congruence]. }
  destruct (Z.eqb_spec mode kElectroluxPO12FACDry) as [->|H2]; simpl.
  { rewrite getMode_wr_Mode;
      [reflexivity | exact Hlen | cbv; split; congruence]. }
  rewrite getMode_wr_Mode by (exact Hlen || (cbv; split; congruence)).
  unfold toCommonMode.
  rewrite (proj2 (Z.eqb_neq _ _) H3), (proj2 (Z.eqb_neq _ _) H1),
    (proj2 (Z.eqb_neq _ _) H2), (proj2 (Z.eqb_neq _ _) H7).
  reflexivity.
Qed.

(** The fan speed that [setFan] leaves for a converted generic speed. *)
Lemma rd_Fan_setFan_convertFan (sp : stdAc.fanspeed_t) (s : frame) :
  is_frame s -> rd Fan (setFan (convertFan sp) s) = convertFan sp.
Proof.
  intros Hs. fold (getFan (setFan (convertFan sp) s)).
  destruct sp; unfold setFan; simpl; apply getFan_wr_Fan;
    try exact Hs; cbv; split; congruence.
Qed.

(** C9. [toCommon()] is a function of the state alone (a [const] method:
    the state is not among its results).  In every state its power field is
    [getPower()], its mode field is [toCommonMode(getMode())], its degrees
    field is [getTemp()] with the celsius flag set; the vertical and the
    horizontal swing fields are both Auto or both Off, as the Swing field
    decides; light, filter, quiet, clean and beep are false, clock and model
    are -1.  After [setPower(b)] the power field is [b], after [setMode(m)]
    the mode field is [toCommonMode(m)], after [setSwing(b)] both swing
    fields are Auto for true and Off for false.  After [setTemp(c)] for a
    whole number of degrees [c] the degrees field is
    [56 - clamp(c, 18, 28)], which is [clamp(c, 18, 28)] only when [c] is 28
    or more: after [setTemp(24)] the degrees field is 32. *)
Theorem toCommon_projection (s : frame) :
  is_frame s ->
  (stdAc.power (toCommon s) = getPower s
   /\ stdAc.mode (toCommon s) = toCommonMode (getMode s)
   /\ stdAc.degrees (toCommon s) = getTemp s
   /\ stdAc.celsius (toCommon s) = true
   /\ (stdAc.swingv (toCommon s) = stdAc.swingv_kAuto
       /\ stdAc.swingh (toCommon s) = stdAc.swingh_kAuto
       /\ getSwing s = true
       \/ stdAc.swingv (toCommon s) = stdAc.swingv_kOff
          /\ stdAc.swingh (toCommon s) = stdAc.swingh_kOff
          /\ getSwing s = false)
   /\ stdAc.light (toCommon s) = false
   /\ stdAc.filter (toCommon s) = false
   /\ stdAc.quiet (toCommon s) = false
   /\ stdAc.clean (toCommon s) = false
   /\ stdAc.beep (toCommon s) = false
   /\ stdAc.clock (toCommon s) = -1
   /\ stdAc.model (toCommon s) = -1)
  /\ (forall b : bool, stdAc.power (toCommon (setPower b s)) = b)
  /\ (forall m : Z, stdAc.mode (toCommon (setMode m s)) = toCommonMode m)
  /\ (forall b : bool,
        stdAc.swingv (toCommon (setSwing b s))
        = (if b then stdAc.swingv_kAuto else stdAc.swingv_kOff)
        /\ stdAc.swingh (toCommon (setSwing b s))
           = (if b then stdAc.swingh_kAuto else stdAc.swingh_kOff))
  /\ (forall c : Z, -100 <= c <= 100 ->
        exists s' : frame,
          setTemp (Float32.of_int c) s = Some s'
          /\ stdAc.celsius (toCommon s') = true
          /\ stdAc.degrees (toCommon s')
             = Float32.of_int (56 - clamp_degrees c)
          /\ (Float32.eqb (stdAc.degrees (toCommon s'))
                (Float32.of_int (clamp_degrees c)) = true
              <-> 28 <= c))
  /\ (exists s' : frame,
        setTemp (Float32.of_int 24) s = Some s'
        /\ stdAc.degrees (toCommon s') = Float32.of_int 32
        /\ Float32.eqb (stdAc.degrees (toCommon s')) (Float32.of_int 24)
           = false).
Proof.
  intros Hs. pose proof Hs as [Hlen _].
  assert (Htemp : forall c : Z, -100 <= c <= 100 ->
            exists s' : frame,
              setTemp (Float32.of_int c) s = Some s'
              /\ getTemp s' = Float32.of_int (56 - clamp_degrees c)).
  { intros c Hc. eexists. split; [apply setTemp_whole_degrees, Hc|].
    rewrite getTemp_decode.
    rewrite rd_Temp_wr by (exact Hs || (unfold clamp_degrees; lia)).
    f_equal. lia. }
  split; [|split; [|split; [|split; [|split]]]].
  - repeat (split; [reflexivity|]).
    split; [|repeat split].
    unfold toCommon, getSwing; simpl.
    destruct (to_bool (rd Swing s)); [left | right]; repeat split.
  - intros b. apply (getPower_setPower s Hs).
  - intros m. apply toCommonMode_setMode, Hs.
  - intros b. unfold toCommon, setSwing; simpl.
    rewrite (to_bool_rd_wr_flag Swing b s)
      by (apply bitfields_ok || (simpl; lia) || exact Hlen).
    destruct b; split; reflexivity.
  - intros c Hc. destruct (Htemp c Hc) as (s' & Hset & Hget).
    exists s'. split; [exact Hset|]. split; [reflexivity|].
    change (stdAc.degrees (toCommon s')) with (getTemp s').
    split; [exact Hget|]. rewrite Hget.
    assert (Hk : 18 <= clamp_degrees c <= 28) by (unfold clamp_degrees; lia).
    assert (Heq : 28 <= c <-> clamp_degrees c = 28)
      by (unfold clamp_degrees; lia).
    rewrite Heq.
    rewrite (tabulated
               (fun k => Float32.eqb (Float32.of_int (56 - k))
                           (Float32.of_int k))
               (fun k => k =? 28) 18 11);
      [apply Z.eqb_eq | vm_compute; reflexivity | lia].
  - destruct (Htemp 24) as (s' & Hset & Hget); [lia|].
    exists s'. split; [exact Hset|].
    change (stdAc.degrees (toCommon s')) with (getTemp s').
    rewrite Hget. split; vm_compute; reflexivity.
Qed.

Lemma toCommon_projection_witness :
  is_frame kElectroluxPO12FACDefaultState
  /\ exists s' : frame,
       setTemp (Float32.of_int 24) kElectroluxPO12FACDefaultState = Some s'
       /\ stdAc.degrees (toCommon s') = Float32.of_int 32.
Proof.
  split; [frame_by_computation|].
  destruct (toCommon_projection kElectroluxPO12FACDefaultState)
    as (_ & _ & _ & _ & _ & s' & Hset & Hdeg & _); [frame_by_computation|].
  exists s'. split; [exact Hset | exact Hdeg].
Defined.

(** The same run, evaluated: the default frame, [setTemp(24)], then
    [toCommon()]. *)
Example toCommon_setTemp_24 :
  option_map (fun s => stdAc.degrees (toCommon s))
    (setTemp (Float32.of_int 24) kElectroluxPO12FACDefaultState)
  = Some (Float32.of_int 32).
Proof. vm_compute. reflexivity. Qed.

(** X17. A generic state written with the converters and the setters, in
    the order power, mode, fan speed, is read back by [toCommon()]: the
    power flag as it was, the mode as it was (Off, which has no native
    mode, as Auto) and the fan speed up to the merging of Low into Min and
    of High into Max; the economy field is then false.  Written in the
    order power, fan speed, mode, the power flag and the mode are read back
    in the same way, but the fan speed only when the mode is not Fan: the
    Fan mode sets the speed High, which is read back as Max. *)
Theorem toCommon_after_generic_setters
  (b : bool) (m : stdAc.opmode_t) (sp : stdAc.fanspeed_t) (s : frame) :
  is_frame s ->
  (stdAc.power
     (toCommon (setFan (convertFan sp)
                  (setMode (convertMode m) (setPower b s)))) = b
   /\ stdAc.mode
        (toCommon (setFan (convertFan sp)
                     (setMode (convertMode m) (setPower b s))))
      = match m with stdAc.opmode_kOff => stdAc.opmode_kAuto | _ => m end
   /\ stdAc.fanspeed
        (toCommon (setFan (convertFan sp)
                     (setMode (convertMode m) (setPower b s))))
      = match sp with
        | stdAc.fanspeed_kLow => stdAc.fanspeed_kMin
        | stdAc.fanspeed_kHigh => stdAc.fanspeed_kMax
        | _ => sp
        end
   /\ stdAc.econo
        (toCommon (setFan (convertFan sp)
                     (setMode (convertMode m) (setPower b s)))) = false)
  /\ (stdAc.power
        (toCommon (setMode (convertMode m)
                     (setFan (convertFan sp) (setPower b s)))) = b
      /\ stdAc.mode
           (toCommon (setMode (convertMode m)
                        (setFan (convertFan sp) (setPower b s))))
         = match m with stdAc.opmode_kOff => stdAc.opmode_kAuto | _ => m end
      /\ stdAc.fanspeed
           (toCommon (setMode (convertMode m)
                        (setFan (convertFan sp) (setPower b s))))
         = match m, sp with
           | stdAc.opmode_kFan, _ => stdAc.fanspeed_kMax
           | _, stdAc.fanspeed_kLow => stdAc.fanspeed_kMin
           | _, stdAc.fanspeed_kHigh => stdAc.fanspeed_kMax
           | _, _ => sp
           end).
Proof.
  intros Hs. pose proof Hs as [Hlen _].
  assert (Hp : is_frame (setPower b s)) by (apply is_frame_setPower, Hs).
  assert (Hpm : is_frame (setMode (convertMode m) (setPower b s)))
    by (apply is_frame_setMode, Hp).
  assert (Hpf : is_frame (setFan (convertFan sp) (setPower b s)))
    by (apply is_frame_setFan, Hp).
  assert (Hpow : rd Power (setPower b s) = Z.b2z b)
    by (apply to_bool_rd_wr_flag;
        [apply bitfields_ok | simpl; lia | exact Hlen]).
  assert (HsetFan_other : forall (g : bitfield) (x : Z) (t : frame),
            bf_byte g <> 8%nat -> rd g (setFan x t) = rd g t).
  { intros g x t Hg. destruct (setFan_stores x t) as (v & -> & _).
    apply rd_wr_other. simpl. exact Hg. }
  assert (Hmode : forall t : frame, is_frame t ->
            toCommonMode (rd Mode (setMode (convertMode m) t))
            = match m with
              | stdAc.opmode_kOff => stdAc.opmode_kAuto
              | _ => m
              end).
  { intros t Ht. rewrite (toCommonMode_setMode _ t Ht).
    destruct m; reflexivity. }
  split.
  - unfold toCommon, getEcono; simpl.
    rewrite !HsetFan_other by (simpl; lia).
    rewrite rd_setMode_other by (simpl; lia).
    rewrite Hpow, (Hmode _ Hp), (rd_Fan_setFan_convertFan sp _ Hpm).
    split; [destruct b; reflexivity|]. split; [reflexivity|].
    destruct sp; split; reflexivity.
  - unfold toCommon; simpl.
    rewrite rd_setMode_other by (simpl; lia).
    rewrite HsetFan_other by (simpl; lia).
    rewrite Hpow, (Hmode _ Hpf).
    split; [destruct b; reflexivity|]. split; [reflexivity|].
    destruct (setMode_stores (convertMode m)
                (setFan (convertFan sp) (setPower b s)))
      as (v & t & -> & _ & [[-> Hne]|[-> Heq]]).
    + rewrite rd_wr_other by (simpl; lia).
      rewrite (rd_Fan_setFan_convertFan sp _ Hp).
      destruct m, sp; try reflexivity; exfalso; apply Hne; reflexivity.
    + rewrite rd_wr_other by (simpl; lia).
      rewrite (rd_wr_fits Fan)
        by (apply bitfields_ok || (destruct Hpf as [Hl _]; exact Hl)
            || (cbv; split; congruence)).
      destruct m; try reflexivity; discriminate Heq.
Qed.

Lemma toCommon_after_generic_setters_witness :
  is_frame kElectroluxPO12FACDefaultState
  /\ stdAc.fanspeed
       (toCommon (setMode (convertMode stdAc.opmode_kFan)
                    (setFan (convertFan stdAc.fanspeed_kLow)
                       (setPower true kElectroluxPO12FACDefaultState))))
     = stdAc.fanspeed_kMax.
Proof.
  split; [frame_by_computation|].
  apply (toCommon_after_generic_setters true stdAc.opmode_kFan
           stdAc.fanspeed_kLow kElectroluxPO12FACDefaultState).
  frame_by_computation.
Defined.
